(** * wsqlx: a shallow embedding of the sqlx wrapper

    The Go package [wsqlx] wraps a [sqlx] connection: a facade that runs
    squirrel queries under tracing spans, a transaction boundary that commits
    or rolls back depending on how the caller's work ended, and the
    arithmetic of pagination.

    The repository holds the facade and the transaction boundary twice.
    Each source file is embedded in a module of its own:

    - [Pagination]   src/unnamed/part_001 ([PaginationInput], [getPageCount]);
    - [RdbmsImpl]    src/rdbms_impl.go (the facade and [DoTx] of type [rdbms],
                     built by [NewRdbms(db *sqlx.DB, opt ...optionFunc)]);
    - [RdbmsV1]      src/unnamed/part_004 (the facade of type [rdbms] built by
                     [NewRdbms(db queryExecutor)]);
    - [DbTxImpl]     src/db_tx_impl.go ([DoTx] of type [sqlxTransaction],
                     which hands the work a facade of [RdbmsV1]).

    Go's effects are made explicit: a computation is its outcome (a normal
    return or a panic with its payload) together with the events it caused
    on the spans, the connection and the transaction, in order. *)

From Stdlib Require Import ZArith List String Ascii Bool Lia DecimalString.
Import ListNotations.
Local Open Scope string_scope.
Local Open Scope list_scope.
Local Open Scope Z_scope.
Set Warnings "-register-all".

(** ** Machine integers

    [int64] values are integers in [[-2^63, 2^63)]; arithmetic wraps, and the
    conversion [uint64(x)] reduces modulo [2^64]. *)

Definition two63 : Z := 2 ^ 63.
Definition two64 : Z := 2 ^ 64.

Definition in_int64 (z : Z) : Prop := - two63 <= z < two63.
Definition in_uint64 (z : Z) : Prop := 0 <= z < two64.

Definition wrap64 (z : Z) : Z := (z + two63) mod two64 - two63.

Definition int64_sub (a b : Z) : Z := wrap64 (a - b).
Definition int64_add (a b : Z) : Z := wrap64 (a + b).
Definition int64_mul (a b : Z) : Z := wrap64 (a * b).
(** Go's [/] and [%] truncate toward zero; [b] is never zero where the code
    divides. *)
Definition int64_quo (a b : Z) : Z := wrap64 (Z.quot a b).
Definition int64_rem (a b : Z) : Z := Z.rem a b.

(** [uint64(x)] for an [int64] [x]. *)
Definition uint64 (z : Z) : Z := z mod two64.

(** ** Pagination *)

Module Pagination.

Record PaginationInput : Type := mkPaginationInput {
  Page : Z;
  PageSize : Z
}.

Record PaginationOutput : Type := mkPaginationOutput {
  out_Page : Z;
  out_PageSize : Z;
  PageCount : Z;
  TotalData : Z
}.

(** [func (p PaginationInput) Offset() int64] *)
Definition Offset (p : PaginationInput) : Z :=
  let offset := 0 in
  if 0 <? Page p
  then int64_mul (int64_sub (Page p) 1) (PageSize p)
  else offset.

(** [func getPageCount(pageSize, totalData int64) int64] *)
Definition getPageCount (pageSize totalData : Z) : Z :=
  let pageCount := 1 in
  if 0 <? pageSize then
    if totalData <=? pageSize then pageCount
    else if int64_rem totalData pageSize =? 0
         then int64_quo totalData pageSize
         else int64_add (int64_quo totalData pageSize) 1
  else pageCount.

(** [func CreatePaginationOutput(input PaginationInput, totalData int64)] *)
Definition CreatePaginationOutput (input : PaginationInput) (totalData : Z)
  : PaginationOutput :=
  let pageCount := getPageCount (PageSize input) totalData in
  {| out_Page := Page input;
     out_PageSize := PageSize input;
     TotalData := totalData;
     PageCount := pageCount |}.

(** The ceiling of the rational [a / b], for [0 < b]. *)
Definition ceil_div (a b : Z) : Z := - ((- a) / b).

End Pagination.

(** ** Go errors

    An [error] value is one of the three shapes the package builds:
    [errors.New] (also every sentinel), [fmt.Errorf] with a [%w] operand, and
    [errors.Join].  A Go [error] interface that may be nil is an
    [option error].  Go compares these values by pointer; here a value is
    identified by its structure, and the sentinels of the code have distinct
    texts. *)

Inductive error : Type :=
| errorString (s : string)
| wrapError (msg : string) (err : error)
| joinError (errs : list error).

Fixpoint error_eqb (a b : error) {struct a} : bool :=
  match a, b with
  | errorString s, errorString t => String.eqb s t
  | wrapError m e, wrapError n f => String.eqb m n && error_eqb e f
  | joinError es, joinError fs =>
      (fix all2 (xs ys : list error) {struct xs} : bool :=
         match xs, ys with
         | [], [] => true
         | x :: xs', y :: ys' => error_eqb x y && all2 xs' ys'
         | _, _ => false
         end) es fs
  | _, _ => false
  end.

(** [err.Error()] *)
Fixpoint Error (e : error) : string :=
  match e with
  | errorString s => s
  | wrapError msg _ => msg
  | joinError errs =>
      (fix lines (xs : list error) : string :=
         match xs with
         | [] => ""
         | [x] => Error x
         | x :: xs' => Error x ++ String "010"%char (lines xs')
         end)%string errs
  end.

(** [errors.Is(err, target)] for non-nil operands: [err] or an error on its
    [Unwrap] tree is [target]. *)
Fixpoint errors_is (err target : error) {struct err} : bool :=
  error_eqb err target ||
  match err with
  | errorString _ => false
  | wrapError _ e => errors_is e target
  | joinError es =>
      (fix any (xs : list error) : bool :=
         match xs with
         | [] => false
         | x :: xs' => errors_is x target || any xs'
         end) es
  end.

(** [errors.Is] on interface values: a nil operand matches only nil. *)
Definition errors_Is (err target : option error) : bool :=
  match err, target with
  | Some e, Some t => errors_is e t
  | None, None => true
  | _, _ => false
  end.

(** [errors.Join(errs...)]: nil operands are dropped; nil when none is left. *)
Definition errors_Join (errs : list (option error)) : option error :=
  match flat_map (fun o => match o with Some e => [e] | None => [] end) errs with
  | [] => None
  | es => Some (joinError es)
  end.

(** [errors.Join(a, b)] when neither operand is nil. *)
Definition errors_join (a b : error) : error := joinError [a; b].

(** [database/sql]'s sentinel and the package's own (src/error.go). *)
Definition sql_ErrNoRows : error := errorString "sql: no rows in result set".
Definition ErrRecordNoRows : error := errorString "record not found".

(** [errTracer(err)]: [fmt.Errorf("%s:%d: %w", frame.Function, frame.Line, err)],
    where [caller] is the text ["Function:Line"] of the immediate caller's
    frame. *)
Definition errTracer (caller : string) (err : error) : error :=
  wrapError (caller ++ ": " ++ Error err)%string err.

(** ** Values, panics and the event log *)

(** Query arguments and scanned values ([interface{}]). *)
Inductive value : Type :=
| VInt (z : Z)
| VString (s : string)
| VNil.

(** What a panic carries: a value given to [panic], or a runtime error. *)
Inductive panic_value : Type :=
| PanicValue (text : string)
| PanicSliceBounds (high len : nat)
| PanicNilDereference.

(** [fmt.Sprintf("%v", p)] *)
Definition panic_text (p : panic_value) : string :=
  match p with
  | PanicValue text => text
  | PanicSliceBounds _ _ => "runtime error: slice bounds out of range"
  | PanicNilDereference =>
      "runtime error: invalid memory address or nil pointer dereference"
  end.

Inductive attr : Type :=
| AttrString (key val : string)
| AttrInt (key : string) (val : Z)
| AttrBool (key : string) (val : bool)
| AttrArgs (key : string) (args : list value).

(** [trace.SpanStartOption] *)
Inductive SpanStartOption : Type :=
| WithSpanKindClient
| WithSpanAttributes (attrs : list attr).

(** Which handle a statement is executed on: the live connection or the open
    transaction. *)
Inductive handle : Type := OnDB | OnTx.

(** A span is known by the name it was started with. *)
Definition span := string.

Inductive event : Type :=
| EvSpanStart (sp : span) (opts : list SpanStartOption)
| EvSpanEnd (sp : span)
| EvRecordError (sp : span) (err : error)
| EvSetStatusError (sp : span) (description : string)
| EvSetAttributes (sp : span) (a : attr)
| EvBeginTxx
| EvCommit
| EvRollback
| EvQueryx (h : handle) (stmt : string) (args : list value)
| EvExec (h : handle) (stmt : string) (args : list value)
| EvQueryRowx (h : handle) (stmt : string) (args : list value)
| EvScan
| EvStructScan
| EvRowsClose.

Definition log := list event.

(** ** Computations *)

Inductive outcome (A : Type) : Type :=
| Returned (a : A)
| Panicked (p : panic_value).
Arguments Returned {A} a.
Arguments Panicked {A} p.

(** A computation yields its outcome and the events it caused, in order. *)
Definition M (A : Type) : Type := (outcome A * log)%type.

Definition ret {A} (a : A) : M A := (Returned a, []).

Definition bind {A B} (c : M A) (k : A -> M B) : M B :=
  match c with
  | (Returned a, l) => let '(o, l') := k a in (o, l ++ l')
  | (Panicked p, l) => (Panicked p, l)
  end.

Definition emit (e : event) : M unit := (Returned tt, [e]).

Definition panic {A} (p : panic_value) : M A := (Panicked p, []).

Definition lift {A} (o : outcome A) : M A := (o, []).

Declare Scope go_scope.
Delimit Scope go_scope with go.
Notation "x <- c ;; k" := (bind c (fun x => k))
  (at level 100, c at next level, right associativity) : go_scope.
Notation "c ;; k" := (bind c (fun _ => k))
  (at level 100, right associativity) : go_scope.
Local Open Scope go_scope.

(** [defer d()] where [d] does not call [recover]: [d] runs when [body] ends,
    normally or not, and leaves the outcome alone unless it panics itself. *)
Definition defer_call {A} (body : M A) (d : M unit) : M A :=
  let '(o, l) := body in
  match d with
  | (Returned _, l') => (o, l ++ l')
  | (Panicked q, l') => (Panicked q, l ++ l')
  end.

(** [defer func() { p := recover(); ... }()] in a function whose named result
    is of type [A].  The closure [d] gets what [recover()] returns and the
    current value of the named result ([unset] when [body] panicked before
    assigning it); what it leaves in the named result is what the function
    returns, unless it panics.  A payload is never nil (since Go 1.21
    [panic(nil)] carries a [*runtime.PanicNilError]). *)
Definition defer_recover {A} (body : M A) (unset : A)
  (d : option panic_value -> A -> M A) : M A :=
  match body with
  | (Returned a, l) => let '(o, l') := d None a in (o, l ++ l')
  | (Panicked p, l) => let '(o, l') := d (Some p) unset in (o, l ++ l')
  end.

(** ** The collaborators

    The driver is scripted: each handle answers a call with a fixed response,
    and every call is an event. *)

Module sql.

Inductive IsolationLevel : Type :=
| LevelDefault | LevelReadUncommitted | LevelReadCommitted
| LevelWriteCommitted | LevelRepeatableRead | LevelSnapshot
| LevelSerializable | LevelLinearizable.

(** [func (i IsolationLevel) String() string] *)
Definition IsolationLevel_String (i : IsolationLevel) : string :=
  match i with
  | LevelDefault => "Default"
  | LevelReadUncommitted => "Read Uncommitted"
  | LevelReadCommitted => "Read Committed"
  | LevelWriteCommitted => "Write Committed"
  | LevelRepeatableRead => "Repeatable Read"
  | LevelSnapshot => "Snapshot"
  | LevelSerializable => "Serializable"
  | LevelLinearizable => "Linearizable"
  end.

Record TxOptions : Type := mkTxOptions {
  Isolation : IsolationLevel;
  ReadOnly : bool
}.

Record Result : Type := mkResult {
  LastInsertId : Z;
  RowsAffected : Z
}.

End sql.

Module sqlx.

(** [*sqlx.Rows]: what [Close] answers. *)
Record Rows : Type := mkRows {
  Close_result : option error
}.

(** [*sqlx.Row]: what [Scan] and [StructScan] answer, either the value they
    store in the destination or an error. *)
Record Row : Type := mkRow {
  Scan_result : value + error;
  StructScan_result : value + error
}.

End sqlx.

(** The capability a facade runs statements on (the interface
    [queryExecutor] of rdbms.go). *)
Record queryExecutor : Type := mkQueryExecutor {
  on : handle;
  QueryxContext_result : string -> list value -> sqlx.Rows + error;
  ExecContext_result : string -> list value -> sql.Result + error;
  QueryRowxContext_result : string -> list value -> sqlx.Row
}.

Definition QueryxContext (q : queryExecutor) (stmt : string) (args : list value)
  : M (sqlx.Rows + error) :=
  emit (EvQueryx (on q) stmt args) ;;
  ret (QueryxContext_result q stmt args).

Definition ExecContext (q : queryExecutor) (stmt : string) (args : list value)
  : M (sql.Result + error) :=
  emit (EvExec (on q) stmt args) ;;
  ret (ExecContext_result q stmt args).

Definition QueryRowxContext (q : queryExecutor) (stmt : string)
  (args : list value) : M sqlx.Row :=
  emit (EvQueryRowx (on q) stmt args) ;;
  ret (QueryRowxContext_result q stmt args).

Definition Close (r : sqlx.Rows) : M (option error) :=
  emit EvRowsClose ;; ret (sqlx.Close_result r).

Definition Scan (r : sqlx.Row) : M (value + error) :=
  emit EvScan ;; ret (sqlx.Scan_result r).

Definition StructScan (r : sqlx.Row) : M (value + error) :=
  emit EvStructScan ;; ret (sqlx.StructScan_result r).

(** [*sqlx.Tx] and [*sqlx.DB]; each is also a [queryExecutor]. *)
Record Tx : Type := mkTx {
  Tx_queryExecutor : queryExecutor;
  Rollback_result : option error;
  Commit_result : option error
}.

Record DB : Type := mkDB {
  DB_queryExecutor : queryExecutor;
  BeginTxx_result : sql.TxOptions -> Tx + error
}.

Definition Rollback (tx : Tx) : M (option error) :=
  emit EvRollback ;; ret (Rollback_result tx).

Definition Commit (tx : Tx) : M (option error) :=
  emit EvCommit ;; ret (Commit_result tx).

Definition BeginTxx (d : DB) (opt : sql.TxOptions) : M (Tx + error) :=
  emit EvBeginTxx ;; ret (BeginTxx_result d opt).

(** The tracer. *)
Definition Start (name : string) (opts : list SpanStartOption) : M span :=
  emit (EvSpanStart name opts) ;; ret name.

Definition End_ (sp : span) : M unit := emit (EvSpanEnd sp).
Definition RecordError (sp : span) (err : error) : M unit :=
  emit (EvRecordError sp err).
Definition SetStatusError (sp : span) (description : string) : M unit :=
  emit (EvSetStatusError sp description).
Definition SetAttributes (sp : span) (a : attr) : M unit :=
  emit (EvSetAttributes sp a).

(** The query builder.  A [Sqlizer] is what its [ToSql] answers; a
    [SelectBuilder] carries the limit and the offset it was given (both
    [uint64]) and renders with them. *)
Module squirrel.

Record Sqlizer : Type := mkSqlizer {
  ToSql : string * list value * option error
}.

Record SelectBuilder : Type := mkSelectBuilder {
  limit : option Z;
  offset : option Z;
  render : option Z -> option Z -> string * list value * option error
}.

Definition Limit (b : SelectBuilder) (n : Z) : SelectBuilder :=
  {| limit := Some n; offset := offset b; render := render b |}.

Definition Offset (b : SelectBuilder) (n : Z) : SelectBuilder :=
  {| limit := limit b; offset := Some n; render := render b |}.

(** A [SelectBuilder] used as a [Sqlizer]. *)
Definition Select_Sqlizer (b : SelectBuilder) : Sqlizer :=
  {| ToSql := render b (limit b) (offset b) |}.

End squirrel.

(** [type callbackRows func(rows *sqlx.Rows) (err error)] *)
Definition callbackRows : Type := sqlx.Rows -> M (option error).

(** [type QueryRowScanType uint8], with [iota + 1] constants. *)
Definition QueryRowScanType : Type := Z.
Definition QueryRowScanTypeDefault : QueryRowScanType := 1.
Definition QueryRowScanTypeStruct : QueryRowScanType := 2.

Definition sqlOperationUnknown : string := "UNKNOWN".

(** The attribute a span gets when closing the rows failed. *)
Definition closeFailedAttr : attr :=
  AttrString "db.system.close.rows" "failed".

(** What [DoTx] causes before the work starts. *)
Definition opened (opts : list SpanStartOption) : log :=
  [EvSpanStart "do transaction" opts; EvBeginTxx].

(** [recordError(span, err)], the same in src/util.go and src/unnamed/part_003. *)
Definition recordError (sp : span) (err : option error) : M unit :=
  match err with
  | Some e =>
      if negb (errors_is e sql_ErrNoRows)
      then RecordError sp e ;; SetStatusError sp (Error e)
      else ret tt
  | None => ret tt
  end.

(** [strings.Fields] and [strings.ToUpper], on ASCII text. *)
Definition is_space (c : ascii) : bool :=
  let n := nat_of_ascii c in
  (Nat.eqb n 32 || (Nat.leb 9 n && Nat.leb n 13))%bool.

Fixpoint fields_from (cur : string) (s : string) : list string :=
  match s with
  | EmptyString => match cur with EmptyString => [] | _ => [cur] end
  | String c s' =>
      if is_space c
      then match cur with
           | EmptyString => fields_from EmptyString s'
           | _ => cur :: fields_from EmptyString s'
           end
      else fields_from (cur ++ String c EmptyString)%string s'
  end.

Definition Fields (s : string) : list string := fields_from EmptyString s.

Definition upper (c : ascii) : ascii :=
  let n := nat_of_ascii c in
  if (Nat.leb 97 n && Nat.leb n 122)%bool then ascii_of_nat (n - 32) else c.

Fixpoint ToUpper (s : string) : string :=
  match s with
  | EmptyString => EmptyString
  | String c s' => String (upper c) (ToUpper s')
  end.

(** [DBQueryParameter.String(...)] of [makeParamAttr]: the attribute carries
    the arguments; how each is formatted is left to [fmt]. *)
Definition makeParamAttr (key : string) (args : list value) : attr :=
  AttrArgs key args.

(** The package path Go prints in a frame's function name. *)
Definition pkg : string := "github.com/SyaibanAhmadRamadhan/sqlx-wrapper".

(** ** src/rdbms_impl.go *)

Module RdbmsImpl.

Import Pagination.

(** [type SpanNameFunc func(stmt string) string]; a call may panic. *)
Definition SpanNameFunc : Type := string -> outcome string.

Record rdbmsConfig : Type := mkRdbmsConfig {
  host : string;
  port : Z;
  user : string
}.

(** The tracer and its provider are the process-wide ones and are left out. *)
Record rdbms : Type := mkRdbms {
  db : DB;
  queryExecutor : queryExecutor;
  attrs : list attr;
  spanNameFunc : option SpanNameFunc;
  includeParams : bool;
  config : option rdbmsConfig
}.

Definition optionFunc : Type := rdbms -> rdbms.

Definition WithAttributes (more : list attr) : optionFunc :=
  fun cfg =>
    {| db := db cfg; queryExecutor := queryExecutor cfg;
       attrs := attrs cfg ++ more; spanNameFunc := spanNameFunc cfg;
       includeParams := includeParams cfg; config := config cfg |}.

Definition WithSpanNameFunc (fn : option SpanNameFunc) : optionFunc :=
  fun cfg =>
    {| db := db cfg; queryExecutor := queryExecutor cfg;
       attrs := attrs cfg; spanNameFunc := fn;
       includeParams := includeParams cfg; config := config cfg |}.

Definition WithOutIncludeQueryParameters : optionFunc :=
  fun cfg =>
    {| db := db cfg; queryExecutor := queryExecutor cfg;
       attrs := attrs cfg; spanNameFunc := spanNameFunc cfg;
       includeParams := false; config := config cfg |}.

Definition WithConfig (port : Z) (host user : string) : optionFunc :=
  fun cfg =>
    {| db := db cfg; queryExecutor := queryExecutor cfg;
       attrs := attrs cfg; spanNameFunc := spanNameFunc cfg;
       includeParams := includeParams cfg;
       config := Some {| host := host; port := port; user := user |} |}.

(** [fmt.Sprintf("%s...", s[0:15])]: the slice faults when [len(s) < 15]. *)
Definition defaultSpanNameFN (s : string) : outcome string :=
  if (String.length s <? 15)%nat
  then Panicked (PanicSliceBounds 15 (String.length s))
  else Returned (substring 0 15 s ++ "...")%string.

Definition NewRdbms (d : DB) (opt : list optionFunc) : rdbms :=
  let r := {| db := d;
              queryExecutor := DB_queryExecutor d;
              attrs := [];
              spanNameFunc := Some defaultSpanNameFN;
              includeParams := true;
              config := None |} in
  fold_left (fun r o => o r) opt r.

(** The options that leave the span-name function alone. *)
Inductive keepsSpanName : optionFunc -> Prop :=
| keeps_WithAttributes (more : list attr) :
    keepsSpanName (WithAttributes more)
| keeps_WithOutIncludeQueryParameters :
    keepsSpanName WithOutIncludeQueryParameters
| keeps_WithConfig (port : Z) (host user : string) :
    keepsSpanName (WithConfig port host user).

(** The call [s.spanNameFunc(stmt)]; calling a nil function faults. *)
Definition call_spanNameFunc (s : rdbms) (stmt : string) : M string :=
  match spanNameFunc s with
  | Some f => lift (f stmt)
  | None => panic PanicNilDereference
  end.

Definition sqlOperationName (s : rdbms) (stmt : string) : M string :=
  match spanNameFunc s with
  | Some f => lift (f stmt)
  | None =>
      match Fields stmt with
      | [] => ret sqlOperationUnknown
      | part :: _ => ret (ToUpper part)
      end
  end.

Definition commonAttribute (s : rdbms) (rawQuery : string) (args : list value)
  : M (list SpanStartOption) :=
  op <- sqlOperationName s rawQuery ;;
  let a := [ WithSpanAttributes [AttrString "db.operation.name" op];
             WithSpanKindClient;
             WithSpanAttributes [AttrString "db.query.text" rawQuery] ] in
  let a := match config s with
           | Some c => a ++ [WithSpanAttributes
                               [ AttrString "server.address" (host c);
                                 AttrInt "server.port" (port c) ]]
           | None => a
           end in
  let a := if includeParams s
           then a ++ [WithSpanAttributes
                        [makeParamAttr "db.query.parameter" args]]
           else a in
  let a := match attrs s with
           | [] => a
           | _ :: _ => a ++ [WithSpanAttributes (attrs s)]
           end in
  ret a.

(** The closure deferred by [QuerySq] once the rows are open. *)
Definition closeRows (spanQueryx : span) (res : sqlx.Rows) : M unit :=
  errClose <- Close res ;;
  match errClose with
  | Some _ =>
      recordError spanQueryx errClose ;;
      SetAttributes spanQueryx (AttrString "db.system.close.rows" "failed")
  | None =>
      SetAttributes spanQueryx
        (AttrString "db.system.close.rows" "successfully")
  end.

Definition QuerySq (s : rdbms) (query : squirrel.Sqlizer)
  (callback : callbackRows) : M (option error) :=
  let '(rawQuery, args, err) := squirrel.ToSql query in
  match err with
  | Some e => ret (Some (errTracer (pkg ++ ".(*rdbms).QuerySq:158") e))
  | None =>
      name <- call_spanNameFunc s rawQuery ;;
      opts <- commonAttribute s rawQuery args ;;
      spanQueryx <- Start name opts ;;
      defer_call
        (res <- QueryxContext (queryExecutor s) rawQuery args ;;
         match res with
         | inr e => recordError spanQueryx (Some e) ;; ret (Some e)
         | inl rows =>
             defer_call (callback rows) (closeRows spanQueryx rows)
         end)
        (End_ spanQueryx)
  end.

Definition ExecSq (s : rdbms) (query : squirrel.Sqlizer)
  : M (option sql.Result * option error) :=
  let '(rawQuery, args, err) := squirrel.ToSql query in
  match err with
  | Some e => ret (None, Some (errTracer (pkg ++ ".(*rdbms).ExecSq:184") e))
  | None =>
      name <- call_spanNameFunc s rawQuery ;;
      opts <- commonAttribute s rawQuery args ;;
      spanExec <- Start name opts ;;
      defer_call
        (res <- ExecContext (queryExecutor s) rawQuery args ;;
         match res with
         | inr e => recordError spanExec (Some e) ;; ret (None, Some e)
         | inl r => ret (Some r, None)
         end)
        (End_ spanExec)
  end.

(** [dest] is what the destination holds before the call; the second
    component of the result is what it holds after. *)
Definition QueryRowSq (s : rdbms) (query : squirrel.Sqlizer)
  (scanType : QueryRowScanType) (dest : value) : M (option error * value) :=
  let '(rawQuery, args, err) := squirrel.ToSql query in
  match err with
  | Some e =>
      ret (Some (errTracer (pkg ++ ".(*rdbms).QueryRowSq:202") e), dest)
  | None =>
      name <- call_spanNameFunc s rawQuery ;;
      opts <- commonAttribute s rawQuery args ;;
      spanQueryx <- Start name opts ;;
      defer_call
        (res <- QueryRowxContext (queryExecutor s) rawQuery args ;;
         scanned <- (if scanType =? QueryRowScanTypeStruct
                     then StructScan res
                     else Scan res) ;;
         match scanned with
         | inr e =>
             (if negb (errors_is e sql_ErrNoRows)
              then recordError spanQueryx (Some e)
              else ret tt) ;;
             ret (Some (errTracer (pkg ++ ".(*rdbms).QueryRowSq:221") e), dest)
         | inl v => ret (None, v)
         end)
        (End_ spanQueryx)
  end.

(** Lines 229-231 of [QuerySqPagination]: the row query with its limit and
    offset attached. *)
Definition rowQuery (query : squirrel.SelectBuilder)
  (paginationInput : PaginationInput) : squirrel.SelectBuilder :=
  let offset := Offset paginationInput in
  let query := squirrel.Limit query (uint64 (PageSize paginationInput)) in
  let query := squirrel.Offset query (uint64 offset) in
  query.

Definition noPaginationOutput : PaginationOutput :=
  {| out_Page := 0; out_PageSize := 0; PageCount := 0; TotalData := 0 |}.

(** The destination of the count is an [int64]. *)
Definition int64_of (v : value) : Z :=
  match v with VInt z => z | _ => 0 end.

Definition QuerySqPagination (s : rdbms)
  (countQuery query : squirrel.SelectBuilder)
  (paginationInput : PaginationInput) (callback : callbackRows)
  : M (PaginationOutput * option error) :=
  let query := rowQuery query paginationInput in
  let totalData := 0 in
  counted <- QueryRowSq s (squirrel.Select_Sqlizer countQuery)
               QueryRowScanTypeDefault (VInt totalData) ;;
  let '(err, dest) := counted in
  let totalData := int64_of dest in
  match err with
  | Some e =>
      ret (noPaginationOutput,
           Some (errTracer (pkg ++ ".(*rdbms).QuerySqPagination:236") e))
  | None =>
      err <- QuerySq s (squirrel.Select_Sqlizer query) callback ;;
      match err with
      | Some e =>
          ret (noPaginationOutput,
               Some (errTracer (pkg ++ ".(*rdbms).QuerySqPagination:241") e))
      | None => ret (CreatePaginationOutput paginationInput totalData, None)
      end
  end.

Definition injectTx (s : rdbms) (tx : Tx) : rdbms :=
  {| db := db s; queryExecutor := Tx_queryExecutor tx;
     attrs := attrs s; spanNameFunc := spanNameFunc s;
     includeParams := includeParams s; config := config s |}.

(** The span options shared by [DoTx] and [DoTxContext]. *)
Definition txSpanOptions (o : sql.TxOptions) : list SpanStartOption :=
  [ WithSpanKindClient;
    WithSpanAttributes
      [AttrString "db.tx.isolation"
         (sql.IsolationLevel_String (sql.Isolation o))];
    WithSpanAttributes [AttrBool "db.tx.readonly" (sql.ReadOnly o)] ].

(** The closure deferred by [DoTx] and [DoTxContext] once the transaction is
    open: [p] is what [recover()] returned, [err] the named result. *)
Definition resolveTx (sp : span) (tx : Tx) (p : option panic_value)
  (err : option error) : M (option error) :=
  match p with
  | Some payload =>
      SetAttributes sp (AttrString "db.tx.operation" "rollback") ;;
      errRollback <- Rollback tx ;;
      (match errRollback with
       | Some _ =>
           recordError sp errRollback ;;
           SetAttributes sp (AttrString "db.tx.status" "rollback failed")
       | None =>
           SetAttributes sp
             (AttrString "db.tx.status" "rollback successfully")
       end) ;;
      recordError sp
        (Some (errorString ("panic occurred: " ++ panic_text payload)%string)) ;;
      panic payload
  | None =>
      match err with
      | Some _ =>
          SetAttributes sp (AttrString "db.tx.operation" "rollback") ;;
          errRollback <- Rollback tx ;;
          match errRollback with
          | Some _ =>
              recordError sp errRollback ;;
              let err := errors_Join [err; errRollback] in
              SetAttributes sp (AttrString "db.tx.status" "rollback failed") ;;
              ret err
          | None =>
              SetAttributes sp
                (AttrString "db.tx.status" "rollback successfully") ;;
              ret err
          end
      | None =>
          SetAttributes sp (AttrString "db.tx.operation" "commit") ;;
          errCommit <- Commit tx ;;
          match errCommit with
          | Some _ =>
              recordError sp errCommit ;;
              let err := errCommit in
              SetAttributes sp (AttrString "db.tx.status" "commit failed") ;;
              ret err
          | None =>
              SetAttributes sp
                (AttrString "db.tx.status" "commit successfully") ;;
              ret err
          end
      end
  end.

(** [opt] is a pointer: [opt.Isolation] faults on nil, before anything else
    happens. *)
Definition DoTx (s : rdbms) (opt : option sql.TxOptions)
  (fn : rdbms -> M (option error)) : M (option error) :=
  match opt with
  | None => panic PanicNilDereference
  | Some o =>
      let opts := txSpanOptions o in
      let spanName := "do transaction" in
      sp <- Start spanName opts ;;
      defer_call
        (began <- BeginTxx (db s) o ;;
         match began with
         | inr e =>
             recordError sp (Some e) ;;
             ret (Some (errTracer (pkg ++ ".(*rdbms).DoTx:268") e))
         | inl tx =>
             defer_recover
               (err <- fn (injectTx s tx) ;;
                (match err with
                 | Some _ => recordError sp err
                 | None => ret tt
                 end) ;;
                ret err)
               None
               (resolveTx sp tx)
         end)
        (End_ sp)
  end.

Definition DoTxContext (s : rdbms) (opt : option sql.TxOptions)
  (fn : rdbms -> M (option error)) : M (option error) :=
  match opt with
  | None => panic PanicNilDereference
  | Some o =>
      let opts := txSpanOptions o in
      let spanName := "do transaction" in
      sp <- Start spanName opts ;;
      defer_call
        (began <- BeginTxx (db s) o ;;
         match began with
         | inr e =>
             recordError sp (Some e) ;;
             ret (Some (errTracer (pkg ++ ".(*rdbms).DoTxContext:326") e))
         | inl tx =>
             defer_recover (fn (injectTx s tx)) None (resolveTx sp tx)
         end)
        (End_ sp)
  end.

End RdbmsImpl.

(** ** src/unnamed/part_004: the facade over a bare [queryExecutor] *)

Module RdbmsV1.

Import Pagination.

Record rdbms : Type := mkRdbms {
  db : queryExecutor
}.

Definition NewRdbms (d : queryExecutor) : rdbms := {| db := d |}.

(** [sqlOperationName] of src/util.go. *)
Definition sqlOperationName (stmt : string) : string :=
  match Fields stmt with
  | [] => sqlOperationUnknown
  | part :: _ => ToUpper part
  end.

Definition spanOptions (rawQuery : string) (args : list value)
  : list SpanStartOption :=
  [ WithSpanKindClient;
    WithSpanAttributes [AttrString "db.pg.query.text" rawQuery];
    WithSpanAttributes [makeParamAttr "db.pg.args" args];
    WithSpanAttributes
      [AttrString "db.pg.operation_name" (sqlOperationName rawQuery)] ].

Definition closeRows (spanQueryx : span) (res : sqlx.Rows) : M unit :=
  errClose <- Close res ;;
  match errClose with
  | Some _ =>
      recordError spanQueryx errClose ;;
      SetAttributes spanQueryx (AttrString "db.system.close.rows" "failed")
  | None =>
      SetAttributes spanQueryx
        (AttrString "db.system.close.rows" "successfully")
  end.

Definition QuerySq (s : rdbms) (query : squirrel.Sqlizer)
  (callback : callbackRows) : M (option error) :=
  let '(rawQuery, args, err) := squirrel.ToSql query in
  match err with
  | Some e => ret (Some (errTracer (pkg ++ ".(*rdbms).QuerySq:29") e))
  | None =>
      spanQueryx <- Start rawQuery (spanOptions rawQuery args) ;;
      defer_call
        (res <- QueryxContext (db s) rawQuery args ;;
         match res with
         | inr e => recordError spanQueryx (Some e) ;; ret (Some e)
         | inl rows =>
             defer_call (callback rows) (closeRows spanQueryx rows)
         end)
        (End_ spanQueryx)
  end.

Definition ExecSq (s : rdbms) (query : squirrel.Sqlizer)
  : M (option sql.Result * option error) :=
  let '(rawQuery, args, err) := squirrel.ToSql query in
  match err with
  | Some e => ret (None, Some (errTracer (pkg ++ ".(*rdbms).ExecSq:60") e))
  | None =>
      spanExec <- Start rawQuery (spanOptions rawQuery args) ;;
      defer_call
        (res <- ExecContext (db s) rawQuery args ;;
         match res with
         | inr e => recordError spanExec (Some e) ;; ret (None, Some e)
         | inl r => ret (Some r, None)
         end)
        (End_ spanExec)
  end.

Definition QueryRowSq (s : rdbms) (query : squirrel.Sqlizer)
  (scanType : QueryRowScanType) (dest : value) : M (option error * value) :=
  let '(rawQuery, args, err) := squirrel.ToSql query in
  match err with
  | Some e =>
      ret (Some (errTracer (pkg ++ ".(*rdbms).QueryRowSq:83") e), dest)
  | None =>
      spanQueryx <- Start rawQuery (spanOptions rawQuery args) ;;
      defer_call
        (res <- QueryRowxContext (db s) rawQuery args ;;
         scanned <- (if scanType =? QueryRowScanTypeStruct
                     then StructScan res
                     else Scan res) ;;
         match scanned with
         | inr e =>
             err <- (if errors_is e sql_ErrNoRows
                     then ret (errors_join e ErrRecordNoRows)
                     else recordError spanQueryx (Some e) ;; ret e) ;;
             ret (Some (errTracer (pkg ++ ".(*rdbms).QueryRowSq:109") err), dest)
         | inl v => ret (None, v)
         end)
        (End_ spanQueryx)
  end.

Definition rowQuery (query : squirrel.SelectBuilder)
  (paginationInput : PaginationInput) : squirrel.SelectBuilder :=
  let offset := Offset paginationInput in
  let query := squirrel.Limit query (uint64 (PageSize paginationInput)) in
  let query := squirrel.Offset query (uint64 offset) in
  query.

Definition QuerySqPagination (s : rdbms)
  (countQuery query : squirrel.SelectBuilder)
  (paginationInput : PaginationInput) (callback : callbackRows)
  : M (PaginationOutput * option error) :=
  let query := rowQuery query paginationInput in
  let totalData := 0 in
  counted <- QueryRowSq s (squirrel.Select_Sqlizer countQuery)
               QueryRowScanTypeDefault (VInt totalData) ;;
  let '(err, dest) := counted in
  let totalData := RdbmsImpl.int64_of dest in
  match err with
  | Some e =>
      ret (RdbmsImpl.noPaginationOutput,
           Some (errTracer (pkg ++ ".(*rdbms).QuerySqPagination:124") e))
  | None =>
      err <- QuerySq s (squirrel.Select_Sqlizer query) callback ;;
      match err with
      | Some e =>
          ret (RdbmsImpl.noPaginationOutput,
               Some (errTracer (pkg ++ ".(*rdbms).QuerySqPagination:129") e))
      | None => ret (CreatePaginationOutput paginationInput totalData, None)
      end
  end.

End RdbmsV1.

(** ** src/db_tx_impl.go *)

Module DbTxImpl.

Record sqlxTransaction : Type := mkSqlxTransaction {
  db : DB
}.

Definition NewSqlxTransaction (d : DB) : sqlxTransaction := {| db := d |}.

Definition txSpanOptions (o : sql.TxOptions) : list SpanStartOption :=
  [ WithSpanKindClient;
    WithSpanAttributes
      [AttrString "db.pg.tx.isolation"
         (sql.IsolationLevel_String (sql.Isolation o))];
    WithSpanAttributes [AttrBool "db.pg.tx.readonly" (sql.ReadOnly o)] ].

(** The closure deferred by [DoTx]. *)
Definition resolveTx (sp : span) (tx : Tx) (p : option panic_value)
  (err : option error) : M (option error) :=
  match p with
  | Some payload =>
      err <- Rollback tx ;;
      recordError sp err ;;
      panic payload
  | None =>
      match err with
      | Some _ =>
          errRollback <- Rollback tx ;;
          match errRollback with
          | Some _ =>
              recordError sp errRollback ;;
              let err := errRollback in
              ret err
          | None => ret err
          end
      | None =>
          errCommit <- Commit tx ;;
          match errCommit with
          | Some _ =>
              recordError sp errCommit ;;
              let err := errCommit in
              ret err
          | None => ret err
          end
      end
  end.

Definition DoTx (s : sqlxTransaction) (opt : option sql.TxOptions)
  (fn : RdbmsV1.rdbms -> M (option error)) : M (option error) :=
  match opt with
  | None => panic PanicNilDereference
  | Some o =>
      let opts := txSpanOptions o in
      let spanName := "do transaction" in
      sp <- Start spanName opts ;;
      defer_call
        (began <- BeginTxx (db s) o ;;
         match began with
         | inr e =>
             recordError sp (Some e) ;;
             ret (Some (errTracer (pkg ++ ".(*sqlxTransaction).DoTx:39") e))
         | inl tx =>
             defer_recover
               (let sqlxWrapper := RdbmsV1.NewRdbms (Tx_queryExecutor tx) in
                fn sqlxWrapper)
               None
               (resolveTx sp tx)
         end)
        (End_ sp)
  end.

End DbTxImpl.

(** ** Scenarios

    Concrete collaborators in the manner of the sqlmock set-ups of the
    tests: a connection whose transaction answers [Rollback] and [Commit] as
    given, and whose statements answer as given. *)

Module Scenario.

Definition boom : error := errorString "boom".
Definition rollbackFailed : error := errorString "rollback failed".
Definition commitFailed : error := errorString "commit failed".
Definition closeFailed : error := errorString "close failed".

(** [&sql.TxOptions{}] *)
Definition options : sql.TxOptions :=
  {| sql.Isolation := sql.LevelDefault; sql.ReadOnly := false |}.

(** An executor whose rows close with [close] and whose single-row reads
    scan as [scanned]. *)
Definition executor (h : handle) (close : option error)
  (scanned : value + error) : queryExecutor :=
  {| on := h;
     QueryxContext_result := fun _ _ => inl {| sqlx.Close_result := close |};
     ExecContext_result :=
       fun _ _ => inl {| sql.LastInsertId := 0; sql.RowsAffected := 1 |};
     QueryRowxContext_result :=
       fun _ _ => {| sqlx.Scan_result := scanned;
                     sqlx.StructScan_result := scanned |} |}.

Definition transaction (rollback commit : option error) : Tx :=
  {| Tx_queryExecutor := executor OnTx None (inl (VInt 1));
     Rollback_result := rollback;
     Commit_result := commit |}.

Definition connection (rollback commit : option error) : DB :=
  {| DB_queryExecutor := executor OnDB None (inl (VInt 1));
     BeginTxx_result := fun _ => inl (transaction rollback commit) |}.

(** A connection outside any transaction. *)
Definition plain (close : option error) (scanned : value + error) : DB :=
  {| DB_queryExecutor := executor OnDB close scanned;
     BeginTxx_result := fun _ => inr boom |}.

(** [SELECT * FROM users WHERE id = ?] with argument 1, as in the tests. *)
Definition selectUser : squirrel.Sqlizer :=
  {| squirrel.ToSql := ("SELECT * FROM users WHERE id = ?", [VInt 1], None) |}.

(** A statement of eight bytes. *)
Definition selectOne : squirrel.Sqlizer :=
  {| squirrel.ToSql := ("SELECT 1", [], None) |}.

(** [fmt.Sprintf("%d", n)] for a [uint64]. *)
Definition decimal (n : Z) : string :=
  NilZero.string_of_uint (N.to_uint (Z.to_N n)).

(** A select builder that renders its limit and offset behind the text, the
    way squirrel does. *)
Definition selecting (text : string) (args : list value)
  : squirrel.SelectBuilder :=
  {| squirrel.limit := None;
     squirrel.offset := None;
     squirrel.render := fun lim off =>
       ((text
         ++ match lim with Some n => " LIMIT " ++ decimal n | None => "" end
         ++ match off with Some n => " OFFSET " ++ decimal n | None => "" end
        )%string, args, None) |}.

Definition countUsers : squirrel.SelectBuilder :=
  selecting "SELECT COUNT(*) FROM users" [].

Definition listUsers : squirrel.SelectBuilder :=
  selecting "SELECT id FROM users" [].

End Scenario.


(** ** Reading a log *)

(** The events that resolve a transaction. *)
Definition is_resolution (ev : event) : bool :=
  match ev with
  | EvCommit | EvRollback => true
  | _ => false
  end.

Definition resolutions (l : log) : log := filter is_resolution l.

(** The statements handed to a [queryExecutor]. *)
Definition is_execution (ev : event) : bool :=
  match ev with
  | EvQueryx _ _ _ | EvExec _ _ _ | EvQueryRowx _ _ _ => true
  | _ => false
  end.

Definition executions (l : log) : log := filter is_execution l.

(** What [span.RecordError] and [span.SetStatus] leave on a span. *)
Definition is_error_record (ev : event) : bool :=
  match ev with
  | EvRecordError _ _ | EvSetStatusError _ _ => true
  | _ => false
  end.

Definition error_records (l : log) : log := filter is_error_record l.

Definition without_error_records (l : log) : log :=
  filter (fun ev => negb (is_error_record ev)) l.

(** How a transaction is resolved after the work ended with [res]. *)
Definition resolution_of (res : outcome (option error)) : event :=
  match res with
  | Returned None => EvCommit
  | _ => EvRollback
  end.

(** A span start option that carries query arguments. *)
Definition carries_args (o : SpanStartOption) : bool :=
  match o with
  | WithSpanAttributes l =>
      existsb (fun a => match a with AttrArgs _ _ => true | _ => false end) l
  | WithSpanKindClient => false
  end.

(** Text of 7-bit bytes, on which [Fields] and [ToUpper] are Go's. *)
Fixpoint is_ascii (s : string) : bool :=
  match s with
  | EmptyString => true
  | String c s' => (nat_of_ascii c <? 128)%nat && is_ascii s'
  end.

Fixpoint no_space (s : string) : bool :=
  match s with
  | EmptyString => true
  | String c s' => negb (is_space c) && no_space s'
  end.

Fixpoint all_space (s : string) : bool :=
  match s with
  | EmptyString => true
  | String c s' => is_space c && all_space s'
  end.

(** The options of [NewRdbms], as written at a call. *)
Inductive rdbmsOption : Type :=
| OptAttributes (more : list attr)
| OptSpanNameFunc (fn : option RdbmsImpl.SpanNameFunc)
| OptOutIncludeQueryParameters
| OptConfig (port : Z) (host user : string).

Definition optionFunc_of (o : rdbmsOption) : RdbmsImpl.optionFunc :=
  match o with
  | OptAttributes more => RdbmsImpl.WithAttributes more
  | OptSpanNameFunc fn => RdbmsImpl.WithSpanNameFunc fn
  | OptOutIncludeQueryParameters => RdbmsImpl.WithOutIncludeQueryParameters
  | OptConfig port host user => RdbmsImpl.WithConfig port host user
  end.

(** What a list of options leaves in each field, read from the last option
    backwards. *)
Fixpoint last_spanNameFunc (os : list rdbmsOption)
  (default : option RdbmsImpl.SpanNameFunc) : option RdbmsImpl.SpanNameFunc :=
  match os with
  | [] => default
  | OptSpanNameFunc fn :: os' => last_spanNameFunc os' fn
  | _ :: os' => last_spanNameFunc os' default
  end.

Fixpoint last_config (os : list rdbmsOption)
  (default : option RdbmsImpl.rdbmsConfig) : option RdbmsImpl.rdbmsConfig :=
  match os with
  | [] => default
  | OptConfig port host user :: os' =>
      last_config os'
        (Some {| RdbmsImpl.host := host; RdbmsImpl.port := port;
                 RdbmsImpl.user := user |})
  | _ :: os' => last_config os' default
  end.

Definition all_attributes (os : list rdbmsOption) : list attr :=
  flat_map (fun o => match o with OptAttributes more => more | _ => [] end) os.

Definition disables_params (os : list rdbmsOption) : bool :=
  existsb (fun o => match o with
                    | OptOutIncludeQueryParameters => true
                    | _ => false
                    end) os.

(** The work that runs one write on the facade it is given and returns its
    error: [func(tx Rdbms) error { _, err := tx.ExecSq(ctx, query); return err }]. *)
Definition writeOnce (query : squirrel.Sqlizer)
  : RdbmsImpl.rdbms -> M (option error) :=
  fun r => res <- RdbmsImpl.ExecSq r query ;; ret (snd res).

Definition writeOnceV1 (query : squirrel.Sqlizer)
  : RdbmsV1.rdbms -> M (option error) :=
  fun r => res <- RdbmsV1.ExecSq r query ;; ret (snd res).

(** The events that release something: closing rows, resolving a
    transaction, ending a span. *)
Definition is_cleanup (ev : event) : bool :=
  match ev with
  | EvRowsClose | EvCommit | EvRollback | EvSpanEnd _ => true
  | _ => false
  end.

Definition cleanups (l : log) : log := filter is_cleanup l.

(** The work that runs one streaming read on the facade it is given:
    [func(tx Rdbms) error { return tx.QuerySq(ctx, query, callback) }]. *)
Definition readWith (query : squirrel.Sqlizer) (callback : callbackRows)
  : RdbmsImpl.rdbms -> M (option error) :=
  fun r => RdbmsImpl.QuerySq r query callback.

Definition readWithV1 (query : squirrel.Sqlizer) (callback : callbackRows)
  : RdbmsV1.rdbms -> M (option error) :=
  fun r => RdbmsV1.QuerySq r query callback.

(** ** Failing collaborators *)

Module Cases.

(** An executor on which every statement fails with [e]. *)
Definition failing (h : handle) (e : error) : queryExecutor :=
  {| on := h;
     QueryxContext_result := fun _ _ => inr e;
     ExecContext_result := fun _ _ => inr e;
     QueryRowxContext_result :=
       fun _ _ => {| sqlx.Scan_result := inr e;
                     sqlx.StructScan_result := inr e |} |}.

(** A connection whose transaction fails every statement with [e]. *)
Definition failingTransaction (e : error) (rollback commit : option error)
  : Tx :=
  {| Tx_queryExecutor := failing OnTx e;
     Rollback_result := rollback;
     Commit_result := commit |}.

Definition failingConnection (e : error) (rollback commit : option error)
  : DB :=
  {| DB_queryExecutor := failing OnDB e;
     BeginTxx_result := fun _ => inl (failingTransaction e rollback commit) |}.

(** A query that does not render. *)
Definition unrendered : squirrel.Sqlizer :=
  {| squirrel.ToSql := ("", [], Some Scenario.boom) |}.

Definition insertUser : squirrel.Sqlizer :=
  {| squirrel.ToSql :=
       ("INSERT INTO users (name) VALUES (?)", [VString "ann"], None) |}.

End Cases.

(** * Properties *)

(** ** Machine integers *)

Lemma two63_val : two63 = 9223372036854775808.
Proof. reflexivity. Qed.

Lemma two64_val : two64 = 18446744073709551616.
Proof. reflexivity. Qed.

Lemma wrap64_id (z : Z) : in_int64 z -> wrap64 z = z.
Proof.
  unfold in_int64, wrap64. rewrite two63_val, two64_val. intros H.
  rewrite Z.mod_small; lia.
Qed.

Lemma wrap64_in_int64 (z : Z) : in_int64 (wrap64 z).
Proof.
  unfold in_int64, wrap64. rewrite two63_val, two64_val.
  pose proof (Z.mod_pos_bound (z + 9223372036854775808) 18446744073709551616).
  lia.
Qed.

Lemma uint64_negative (z : Z) :
  in_int64 z -> z < 0 -> uint64 z = z + two64 /\ two63 <= z + two64 < two64.
Proof.
  unfold in_int64, uint64. rewrite two63_val, two64_val. intros H Hneg.
  split; [| lia].
  symmetry. apply Z.mod_unique with (q := -1); lia.
Qed.

Lemma uint64_in_uint64 (z : Z) : in_uint64 (uint64 z).
Proof.
  unfold in_uint64, uint64. rewrite two64_val. apply Z.mod_pos_bound. lia.
Qed.

(** ** Pagination *)

Section PaginationFacts.

Import Pagination.

(** [ceil_div] is the ceiling: the least [r] with [a <= r * b]. *)
Lemma ceil_div_bounds (a b : Z) :
  0 < b -> (ceil_div a b - 1) * b < a <= ceil_div a b * b.
Proof.
  intros Hb. unfold ceil_div.
  pose proof (Z.div_mod (- a) b ltac:(lia)) as Hdm.
  pose proof (Z.mod_pos_bound (- a) b Hb) as Hm.
  nia.
Qed.

Lemma ceil_div_exact (a b : Z) :
  0 < b -> a mod b = 0 -> ceil_div a b = a / b.
Proof.
  intros Hb Hm. unfold ceil_div. rewrite Z.div_opp_l_z; lia.
Qed.

Lemma ceil_div_inexact (a b : Z) :
  0 < b -> a mod b <> 0 -> ceil_div a b = a / b + 1.
Proof.
  intros Hb Hm. unfold ceil_div. rewrite Z.div_opp_l_nz; lia.
Qed.

Lemma quot_in_int64 (a b : Z) :
  in_int64 a -> 0 <= a -> 0 < b -> in_int64 (a / b) /\ (a mod b <> 0 -> in_int64 (a / b + 1)).
Proof.
  unfold in_int64. rewrite two63_val. intros Ha Ha0 Hb.
  pose proof (Z.div_pos a b Ha0 Hb).
  assert (a / b <= a) by (apply Z.div_le_upper_bound; nia).
  split; [lia |].
  intros Hm.
  assert (a / b < a); [| lia].
  pose proof (Z.div_mod a b ltac:(lia)).
  pose proof (Z.mod_pos_bound a b Hb).
  destruct (Z.eq_dec b 1) as [-> | Hb1].
  - rewrite Z.mod_1_r in Hm. lia.
  - nia.
Qed.

(** C6.  For every page size above zero and every total that is not
    negative, [getPageCount] is 1 when the total is at most the page size and
    the ceiling of total / page size otherwise; for every page size that is
    zero or negative it is 1. *)
Theorem getPageCount_spec (pageSize totalData : Z) :
  in_int64 pageSize -> in_int64 totalData ->
  (0 < pageSize -> 0 <= totalData ->
     (totalData <= pageSize -> getPageCount pageSize totalData = 1) /\
     (pageSize < totalData ->
        getPageCount pageSize totalData = ceil_div totalData pageSize)) /\
  (pageSize <= 0 -> getPageCount pageSize totalData = 1).
Proof.
  intros Hp Ht. unfold getPageCount. split.
  - intros Hpos Hnn. destruct (Z.ltb_spec 0 pageSize) as [_ | ?]; [| lia].
    split; intros Hcmp.
    + destruct (Z.leb_spec totalData pageSize); [reflexivity | lia].
    + destruct (Z.leb_spec totalData pageSize); [lia |].
      unfold int64_rem, int64_quo, int64_add.
      rewrite Z.rem_mod_nonneg, Z.quot_div_nonneg by lia.
      destruct (quot_in_int64 totalData pageSize Ht Hnn Hpos) as [Hq Hq1].
      rewrite (wrap64_id _ Hq).
      destruct (Z.eqb_spec (totalData mod pageSize) 0) as [Hz | Hnz].
      * symmetry. apply ceil_div_exact; assumption.
      * rewrite (wrap64_id _ (Hq1 Hnz)).
        symmetry. apply ceil_div_inexact; assumption.
  - intros Hle. destruct (Z.ltb_spec 0 pageSize); [lia | reflexivity].
Qed.

Lemma getPageCount_spec_witness :
  getPageCount 10 7 = 1 /\ getPageCount 10 25 = ceil_div 25 10 /\
  getPageCount (-4) 25 = 1.
Proof.
  assert (R : forall z, - 100 <= z <= 100 -> in_int64 z)
    by (unfold in_int64; rewrite two63_val; lia).
  split; [| split].
  - refine (proj1 (proj1 (getPageCount_spec 10 7 _ _) _ _) _);
      try apply R; lia.
  - refine (proj2 (proj1 (getPageCount_spec 10 25 _ _) _ _) _);
      try apply R; lia.
  - refine (proj2 (getPageCount_spec (-4) 25 _ _) _); try apply R; lia.
Defined.

(** C7, as stated, fails: on page 2^32 + 1 with page size 2^32 the product
    (page - 1) * pageSize is 2^64, and the [int64] offset is 0. *)
Lemma Offset_overflow_counterexample :
  let p := {| Page := 4294967297; PageSize := 4294967296 |} in
  in_int64 (Page p) /\ in_int64 (PageSize p) /\ 1 <= Page p /\
  Offset p = 0 /\ Offset p <> (Page p - 1) * PageSize p.
Proof.
  cbv zeta. unfold in_int64. rewrite two63_val.
  repeat split; try (vm_compute; congruence).
Qed.

(** C7, amended.  The offset is 0 when the page is zero or negative; when the
    page is at least 1 it is (page - 1) * pageSize reduced to an [int64], which is
    (page - 1) * pageSize itself whenever that product fits an [int64]. *)
Theorem Offset_spec (p : PaginationInput) :
  in_int64 (Page p) -> in_int64 (PageSize p) ->
  (Page p <= 0 -> Offset p = 0) /\
  (1 <= Page p -> Offset p = wrap64 ((Page p - 1) * PageSize p)) /\
  (1 <= Page p -> in_int64 ((Page p - 1) * PageSize p) ->
     Offset p = (Page p - 1) * PageSize p).
Proof.
  intros HP HS. unfold Offset.
  assert (Hsub : 1 <= Page p -> int64_sub (Page p) 1 = Page p - 1).
  { intros H1. unfold int64_sub. apply wrap64_id.
    unfold in_int64 in *. lia. }
  split; [| split].
  - intros Hle. destruct (Z.ltb_spec 0 (Page p)); [lia | reflexivity].
  - intros H1. destruct (Z.ltb_spec 0 (Page p)); [| lia].
    unfold int64_mul. rewrite (Hsub H1). reflexivity.
  - intros H1 Hfit. destruct (Z.ltb_spec 0 (Page p)); [| lia].
    unfold int64_mul. rewrite (Hsub H1). apply wrap64_id. exact Hfit.
Qed.

Lemma Offset_spec_witness :
  Offset {| Page := 0; PageSize := 10 |} = 0 /\
  Offset {| Page := 2; PageSize := 10 |} = wrap64 ((2 - 1) * 10) /\
  Offset {| Page := 2; PageSize := 10 |} = (2 - 1) * 10.
Proof.
  assert (R : forall z, - 100 <= z <= 100 -> in_int64 z)
    by (unfold in_int64; rewrite two63_val; lia).
  split; [| split].
  - refine (proj1 (Offset_spec {| Page := 0; PageSize := 10 |} _ _) _);
      simpl; try apply R; lia.
  - refine (proj1 (proj2 (Offset_spec {| Page := 2; PageSize := 10 |} _ _)) _);
      simpl; try apply R; lia.
  - refine (proj2 (proj2 (Offset_spec {| Page := 2; PageSize := 10 |} _ _)) _ _);
      simpl; try apply R; lia.
Defined.

End PaginationFacts.

(** ** Errors *)

Lemma error_eqb_refl : forall e, error_eqb e e = true.
Proof.
  fix IH 1. intros [s | m e | es]; simpl.
  - apply String.eqb_refl.
  - rewrite String.eqb_refl, IH. reflexivity.
  - induction es as [| x xs IHxs]; [reflexivity |].
    rewrite IH, IHxs. reflexivity.
Qed.

Lemma errors_is_eq (e t : error) :
  error_eqb e t = true -> errors_is e t = true.
Proof. intros H. destruct e; cbn [errors_is]; rewrite H; reflexivity. Qed.

Lemma errors_is_refl (e : error) : errors_is e e = true.
Proof. apply errors_is_eq, error_eqb_refl. Qed.

Lemma errors_is_wrap (msg : string) (e t : error) :
  errors_is e t = true -> errors_is (wrapError msg e) t = true.
Proof. intros H. cbn [errors_is]. rewrite H. apply orb_true_r. Qed.

Lemma errors_is_errTracer (caller : string) (e t : error) :
  errors_is e t = true -> errors_is (errTracer caller e) t = true.
Proof. apply errors_is_wrap. Qed.

Lemma errors_is_join_l (a b t : error) :
  errors_is a t = true -> errors_is (errors_join a b) t = true.
Proof.
  intros H. unfold errors_join. cbn [errors_is]. rewrite H. apply orb_true_r.
Qed.

Lemma errors_is_join_r (a b t : error) :
  errors_is b t = true -> errors_is (errors_join a b) t = true.
Proof.
  intros H. unfold errors_join. cbn [errors_is]. rewrite H.
  rewrite !orb_true_r. reflexivity.
Qed.

(** ** Computations *)

Lemma recordError_returns (sp : span) (err : option error) :
  fst (recordError sp err) = Returned tt.
Proof.
  destruct err as [e |]; simpl; [| reflexivity].
  destruct (errors_is e sql_ErrNoRows); reflexivity.
Qed.

Lemma recordError_events (sp : span) (err : option error) :
  forall ev, In ev (snd (recordError sp err)) ->
    exists e, err = Some e /\ errors_is e sql_ErrNoRows = false /\
      (ev = EvRecordError sp e \/ ev = EvSetStatusError sp (Error e)).
Proof.
  intros ev. destruct err as [e |]; simpl; [| tauto].
  destruct (errors_is e sql_ErrNoRows) eqn:E; simpl; [tauto |].
  intros [<- | [<- | []]]; exists e; auto.
Qed.

Lemma recordError_records (sp : span) (e : error) :
  errors_is e sql_ErrNoRows = false ->
  recordError sp (Some e) =
    (Returned tt, [EvRecordError sp e; EvSetStatusError sp (Error e)]).
Proof. intros H. simpl. rewrite H. reflexivity. Qed.

Lemma recordError_split (sp : span) (err : option error) :
  recordError sp err = (Returned tt, snd (recordError sp err)).
Proof.
  pose proof (recordError_returns sp err) as H.
  destruct (recordError sp err) as [o l]. simpl in *. congruence.
Qed.

Arguments recordError : simpl never.
Arguments RdbmsImpl.closeRows : simpl never.
Arguments RdbmsV1.closeRows : simpl never.

Ltac unfold_go :=
  unfold Start, End_, BeginTxx, Rollback, Commit, Close, Scan, StructScan,
    QueryxContext, ExecContext, QueryRowxContext,
    RecordError, SetStatusError, SetAttributes,
    defer_call, defer_recover, bind, emit, ret, panic, lift in *.

Ltac norm_log :=
  repeat (rewrite <- ?app_assoc, ?app_nil_r; cbn [app fst snd]).

(** Evaluate a call of [recordError] whose argument is not known. *)
Ltac step_recordError :=
  match goal with
  | |- context [recordError ?sp ?err] =>
      rewrite (recordError_split sp err);
      let l := fresh "rec" in
      let E := fresh "Erec" in
      remember (snd (recordError sp err)) as l eqn:E
  end.

(** ** Transactions *)

Section DoTxFacts.

Variable o : sql.TxOptions.
Variable tx : Tx.

Lemma rdbms_DoTx_work_ok (s : RdbmsImpl.rdbms)
  (fn : RdbmsImpl.rdbms -> M (option error)) (l : log) :
  BeginTxx_result (RdbmsImpl.db s) o = inl tx ->
  fn (RdbmsImpl.injectTx s tx) = (Returned None, l) ->
  exists post,
    RdbmsImpl.DoTx s (Some o) fn =
      (Returned (Commit_result tx),
       opened (RdbmsImpl.txSpanOptions o) ++ l ++ post) /\
    In EvCommit post /\ ~ In EvRollback post.
Proof.
  intros Hb Hf. unfold RdbmsImpl.DoTx, RdbmsImpl.resolveTx, opened.
  unfold_go. cbn. rewrite Hb. cbn. rewrite Hf. cbn.
  destruct (Commit_result tx) as [ec |]; cbn.
  - step_recordError. cbn. norm_log.
    eexists. split; [reflexivity |]. split.
    + cbn. auto.
    + cbn. rewrite in_app_iff. cbn.
      intros [? | [? | [Hin | [? | [? | []]]]]]; try discriminate.
      subst rec. apply recordError_events in Hin.
      destruct Hin as (e & _ & _ & [? | ?]); discriminate.
  - norm_log. eexists. split; [reflexivity |]. split; cbn.
    + auto.
    + intros [? | [? | [? | [? | []]]]]; discriminate.
Qed.


Lemma sqlxTransaction_DoTx_work_ok (s : DbTxImpl.sqlxTransaction)
  (fn : RdbmsV1.rdbms -> M (option error)) (l : log) :
  BeginTxx_result (DbTxImpl.db s) o = inl tx ->
  fn (RdbmsV1.NewRdbms (Tx_queryExecutor tx)) = (Returned None, l) ->
  exists post,
    DbTxImpl.DoTx s (Some o) fn =
      (Returned (Commit_result tx),
       opened (DbTxImpl.txSpanOptions o) ++ l ++ post) /\
    In EvCommit post /\ ~ In EvRollback post.
Proof.
  intros Hb Hf. unfold DbTxImpl.DoTx, DbTxImpl.resolveTx, opened.
  unfold_go. cbn. rewrite Hb. cbn. rewrite Hf. cbn.
  destruct (Commit_result tx) as [ec |]; cbn.
  - step_recordError. cbn. norm_log.
    eexists. split; [reflexivity |]. split.
    + cbn. auto.
    + cbn. rewrite in_app_iff. cbn.
      intros [? | [Hin | [? | []]]]; try discriminate.
      subst rec. apply recordError_events in Hin.
      destruct Hin as (e & _ & _ & [? | ?]); discriminate.
  - norm_log. eexists. split; [reflexivity |]. split; cbn.
    + auto.
    + intros [? | [? | []]]; discriminate.
Qed.

(** The events of [recordError] are neither a commit nor a rollback. *)
Lemma recordError_no_resolution (sp : span) (err : option error) :
  ~ In EvCommit (snd (recordError sp err)) /\
  ~ In EvRollback (snd (recordError sp err)).
Proof.
  split; intros Hin; apply recordError_events in Hin;
    destruct Hin as (e & _ & _ & [? | ?]); discriminate.
Qed.

Ltac no_resolution :=
  let H := fresh "Hin" in
  intros H; cbn in H; repeat (rewrite in_app_iff in H; cbn in H);
  repeat match goal with
         | H : _ \/ _ |- _ => destruct H
         | H : False |- _ => destruct H
         | H : In EvCommit (snd (recordError ?sp ?err)) |- _ =>
             destruct (proj1 (recordError_no_resolution sp err) H)
         | H : In EvRollback (snd (recordError ?sp ?err)) |- _ =>
             destruct (proj2 (recordError_no_resolution sp err) H)
         | H : _ = _ |- _ => discriminate H
         end.

Ltac find_event :=
  cbn; rewrite ?in_app_iff; cbn; intuition auto.

Lemma rdbms_DoTx_work_error (s : RdbmsImpl.rdbms)
  (fn : RdbmsImpl.rdbms -> M (option error)) (e : error) (l : log) :
  BeginTxx_result (RdbmsImpl.db s) o = inl tx ->
  fn (RdbmsImpl.injectTx s tx) = (Returned (Some e), l) ->
  exists post,
    RdbmsImpl.DoTx s (Some o) fn =
      (Returned (match Rollback_result tx with
                 | Some rb => Some (errors_join e rb)
                 | None => Some e
                 end),
       opened (RdbmsImpl.txSpanOptions o) ++ l ++ post) /\
    In EvRollback post /\ ~ In EvCommit post.
Proof.
  intros Hb Hf. unfold RdbmsImpl.DoTx, RdbmsImpl.resolveTx, opened.
  unfold_go. cbn. rewrite Hb. cbn. rewrite Hf. cbn.
  rewrite (recordError_split _ (Some e)). cbn.
  destruct (Rollback_result tx) as [rb |]; cbn.
  - rewrite (recordError_split _ (Some rb)). cbn. norm_log.
    eexists. split; [reflexivity |]. split; [find_event | no_resolution].
  - norm_log.
    eexists. split; [reflexivity |]. split; [find_event | no_resolution].
Qed.

Lemma sqlxTransaction_DoTx_work_error (s : DbTxImpl.sqlxTransaction)
  (fn : RdbmsV1.rdbms -> M (option error)) (e : error) (l : log) :
  BeginTxx_result (DbTxImpl.db s) o = inl tx ->
  fn (RdbmsV1.NewRdbms (Tx_queryExecutor tx)) = (Returned (Some e), l) ->
  exists post,
    DbTxImpl.DoTx s (Some o) fn =
      (Returned (match Rollback_result tx with
                 | Some rb => Some rb
                 | None => Some e
                 end),
       opened (DbTxImpl.txSpanOptions o) ++ l ++ post) /\
    In EvRollback post /\ ~ In EvCommit post.
Proof.
  intros Hb Hf. unfold DbTxImpl.DoTx, DbTxImpl.resolveTx, opened.
  unfold_go. cbn. rewrite Hb. cbn. rewrite Hf. cbn.
  destruct (Rollback_result tx) as [rb |]; cbn.
  - rewrite (recordError_split _ (Some rb)). cbn. norm_log.
    eexists. split; [reflexivity |]. split; [find_event | no_resolution].
  - norm_log.
    eexists. split; [reflexivity |]. split; [find_event | no_resolution].
Qed.

Lemma rdbms_DoTx_work_panics (s : RdbmsImpl.rdbms)
  (fn : RdbmsImpl.rdbms -> M (option error)) (p : panic_value) (l : log) :
  BeginTxx_result (RdbmsImpl.db s) o = inl tx ->
  fn (RdbmsImpl.injectTx s tx) = (Panicked p, l) ->
  exists post,
    RdbmsImpl.DoTx s (Some o) fn =
      (Panicked p, opened (RdbmsImpl.txSpanOptions o) ++ l ++ post) /\
    In EvRollback post /\ ~ In EvCommit post.
Proof.
  intros Hb Hf. unfold RdbmsImpl.DoTx, RdbmsImpl.resolveTx, opened.
  unfold_go. cbn. rewrite Hb. cbn. rewrite Hf. cbn.
  destruct (Rollback_result tx) as [rb |]; cbn.
  - rewrite (recordError_split _ (Some rb)). cbn.
    rewrite (recordError_split _ (Some (errorString _))). cbn. norm_log.
    eexists. split; [reflexivity |]. split; [find_event | no_resolution].
  - rewrite (recordError_split _ (Some (errorString _))). cbn. norm_log.
    eexists. split; [reflexivity |]. split; [find_event | no_resolution].
Qed.

Lemma sqlxTransaction_DoTx_work_panics (s : DbTxImpl.sqlxTransaction)
  (fn : RdbmsV1.rdbms -> M (option error)) (p : panic_value) (l : log) :
  BeginTxx_result (DbTxImpl.db s) o = inl tx ->
  fn (RdbmsV1.NewRdbms (Tx_queryExecutor tx)) = (Panicked p, l) ->
  exists post,
    DbTxImpl.DoTx s (Some o) fn =
      (Panicked p, opened (DbTxImpl.txSpanOptions o) ++ l ++ post) /\
    In EvRollback post /\ ~ In EvCommit post.
Proof.
  intros Hb Hf. unfold DbTxImpl.DoTx, DbTxImpl.resolveTx, opened.
  unfold_go. cbn. rewrite Hb. cbn. rewrite Hf. cbn.
  rewrite (recordError_split _ (Rollback_result tx)). cbn. norm_log.
  eexists. split; [reflexivity |]. split; [find_event | no_resolution].
Qed.

(** C2.  When the work returns a non-nil error and the rollback succeeds,
    [DoTx] rolls back and returns exactly the error of the work; this holds
    of [DoTx] of [rdbms] and of [DoTx] of [sqlxTransaction]. *)
Theorem DoTx_returns_work_error_unchanged (e : error) (l : log) :
  Rollback_result tx = None ->
  (forall (s : RdbmsImpl.rdbms) fn,
     BeginTxx_result (RdbmsImpl.db s) o = inl tx ->
     fn (RdbmsImpl.injectTx s tx) = (Returned (Some e), l) ->
     exists post,
       RdbmsImpl.DoTx s (Some o) fn =
         (Returned (Some e),
          opened (RdbmsImpl.txSpanOptions o) ++ l ++ post) /\
       In EvRollback post /\ ~ In EvCommit post) /\
  (forall (s : DbTxImpl.sqlxTransaction) fn,
     BeginTxx_result (DbTxImpl.db s) o = inl tx ->
     fn (RdbmsV1.NewRdbms (Tx_queryExecutor tx)) = (Returned (Some e), l) ->
     exists post,
       DbTxImpl.DoTx s (Some o) fn =
         (Returned (Some e),
          opened (DbTxImpl.txSpanOptions o) ++ l ++ post) /\
       In EvRollback post /\ ~ In EvCommit post).
Proof.
  intros Hrb. split; intros s fn Hb Hf.
  - destruct (rdbms_DoTx_work_error s fn e l Hb Hf) as (post & E & H).
    rewrite Hrb in E. exists post. auto.
  - destruct (sqlxTransaction_DoTx_work_error s fn e l Hb Hf) as (post & E & H).
    rewrite Hrb in E. exists post. auto.
Qed.

(** C3.  When the work panics, [DoTx] attempts the rollback and panics again
    with the payload of the work, whatever the rollback answered; this holds
    of [DoTx] of [rdbms] and of [DoTx] of [sqlxTransaction]. *)
Theorem DoTx_reraises_panic (p : panic_value) (l : log) :
  (forall (s : RdbmsImpl.rdbms) fn,
     BeginTxx_result (RdbmsImpl.db s) o = inl tx ->
     fn (RdbmsImpl.injectTx s tx) = (Panicked p, l) ->
     exists post,
       RdbmsImpl.DoTx s (Some o) fn =
         (Panicked p, opened (RdbmsImpl.txSpanOptions o) ++ l ++ post) /\
       In EvRollback post /\ ~ In EvCommit post) /\
  (forall (s : DbTxImpl.sqlxTransaction) fn,
     BeginTxx_result (DbTxImpl.db s) o = inl tx ->
     fn (RdbmsV1.NewRdbms (Tx_queryExecutor tx)) = (Panicked p, l) ->
     exists post,
       DbTxImpl.DoTx s (Some o) fn =
         (Panicked p, opened (DbTxImpl.txSpanOptions o) ++ l ++ post) /\
       In EvRollback post /\ ~ In EvCommit post).
Proof.
  split; intros s fn Hb Hf.
  - exact (rdbms_DoTx_work_panics s fn p l Hb Hf).
  - exact (sqlxTransaction_DoTx_work_panics s fn p l Hb Hf).
Qed.

(** C4.  When the work returns nil, [DoTx] commits and does not roll back,
    and returns what the commit answered: nil when the commit succeeds, the
    commit error when it fails; this holds of [DoTx] of [rdbms] and of [DoTx]
    of [sqlxTransaction]. *)
Theorem DoTx_commits_after_success (l : log) :
  (forall (s : RdbmsImpl.rdbms) fn,
     BeginTxx_result (RdbmsImpl.db s) o = inl tx ->
     fn (RdbmsImpl.injectTx s tx) = (Returned None, l) ->
     exists post,
       RdbmsImpl.DoTx s (Some o) fn =
         (Returned (Commit_result tx),
          opened (RdbmsImpl.txSpanOptions o) ++ l ++ post) /\
       In EvCommit post /\ ~ In EvRollback post) /\
  (forall (s : DbTxImpl.sqlxTransaction) fn,
     BeginTxx_result (DbTxImpl.db s) o = inl tx ->
     fn (RdbmsV1.NewRdbms (Tx_queryExecutor tx)) = (Returned None, l) ->
     exists post,
       DbTxImpl.DoTx s (Some o) fn =
         (Returned (Commit_result tx),
          opened (DbTxImpl.txSpanOptions o) ++ l ++ post) /\
       In EvCommit post /\ ~ In EvRollback post).
Proof.
  split; intros s fn Hb Hf.
  - exact (rdbms_DoTx_work_ok s fn l Hb Hf).
  - exact (sqlxTransaction_DoTx_work_ok s fn l Hb Hf).
Qed.

(** X1.  When the work returns a non-nil error and the rollback fails,
    [DoTx] of [rdbms] returns the join of the two: both are on the chain of
    the result. *)
Theorem rdbms_DoTx_joins_rollback_error (s : RdbmsImpl.rdbms)
  (fn : RdbmsImpl.rdbms -> M (option error)) (e rb : error) (l : log) :
  BeginTxx_result (RdbmsImpl.db s) o = inl tx ->
  fn (RdbmsImpl.injectTx s tx) = (Returned (Some e), l) ->
  Rollback_result tx = Some rb ->
  fst (RdbmsImpl.DoTx s (Some o) fn) = Returned (Some (errors_join e rb)) /\
  errors_is (errors_join e rb) e = true /\
  errors_is (errors_join e rb) rb = true.
Proof.
  intros Hb Hf Hrb.
  destruct (rdbms_DoTx_work_error s fn e l Hb Hf) as (post & E & _).
  rewrite Hrb in E. rewrite E. split; [reflexivity |]. split.
  - apply errors_is_join_l, errors_is_refl.
  - apply errors_is_join_r, errors_is_refl.
Qed.

End DoTxFacts.

Section DoTxScenarios.

Import Scenario.

Lemma DoTx_returns_work_error_unchanged_witness :
  fst (RdbmsImpl.DoTx (RdbmsImpl.NewRdbms (connection None None) [])
         (Some options) (fun _ => ret (Some boom)))
    = Returned (Some boom) /\
  fst (DbTxImpl.DoTx (DbTxImpl.NewSqlxTransaction (connection None None))
         (Some options) (fun _ => ret (Some boom)))
    = Returned (Some boom).
Proof.
  pose proof (DoTx_returns_work_error_unchanged options
                (transaction None None) boom [] eq_refl) as [H1 H2].
  split.
  - destruct (H1 (RdbmsImpl.NewRdbms (connection None None) [])
                (fun _ => ret (Some boom)) eq_refl eq_refl) as (post & E & _).
    rewrite E. reflexivity.
  - destruct (H2 (DbTxImpl.NewSqlxTransaction (connection None None))
                (fun _ => ret (Some boom)) eq_refl eq_refl) as (post & E & _).
    rewrite E. reflexivity.
Defined.

Lemma DoTx_reraises_panic_witness :
  fst (RdbmsImpl.DoTx
         (RdbmsImpl.NewRdbms (connection (Some rollbackFailed) None) [])
         (Some options) (fun _ => panic (PanicValue "boom")))
    = Panicked (PanicValue "boom") /\
  fst (DbTxImpl.DoTx
         (DbTxImpl.NewSqlxTransaction (connection (Some rollbackFailed) None))
         (Some options) (fun _ => panic (PanicValue "boom")))
    = Panicked (PanicValue "boom").
Proof.
  pose proof (DoTx_reraises_panic options
                (transaction (Some rollbackFailed) None)
                (PanicValue "boom") []) as [H1 H2].
  split.
  - destruct (H1 (RdbmsImpl.NewRdbms
                    (connection (Some rollbackFailed) None) [])
                (fun _ => panic (PanicValue "boom")) eq_refl eq_refl)
      as (post & E & _).
    rewrite E. reflexivity.
  - destruct (H2 (DbTxImpl.NewSqlxTransaction
                    (connection (Some rollbackFailed) None))
                (fun _ => panic (PanicValue "boom")) eq_refl eq_refl)
      as (post & E & _).
    rewrite E. reflexivity.
Defined.

Lemma DoTx_commits_after_success_witness :
  fst (RdbmsImpl.DoTx
         (RdbmsImpl.NewRdbms (connection None (Some commitFailed)) [])
         (Some options) (fun _ => ret None))
    = Returned (Some commitFailed) /\
  fst (DbTxImpl.DoTx (DbTxImpl.NewSqlxTransaction (connection None None))
         (Some options) (fun _ => ret None))
    = Returned None.
Proof.
  split.
  - destruct (proj1 (DoTx_commits_after_success options
                       (transaction None (Some commitFailed)) [])
                (RdbmsImpl.NewRdbms (connection None (Some commitFailed)) [])
                (fun _ => ret None) eq_refl eq_refl) as (post & E & _).
    rewrite E. reflexivity.
  - destruct (proj2 (DoTx_commits_after_success options
                       (transaction None None) [])
                (DbTxImpl.NewSqlxTransaction (connection None None))
                (fun _ => ret None) eq_refl eq_refl) as (post & E & _).
    rewrite E. reflexivity.
Defined.

Lemma rdbms_DoTx_joins_rollback_error_witness :
  fst (RdbmsImpl.DoTx
         (RdbmsImpl.NewRdbms (connection (Some rollbackFailed) None) [])
         (Some options) (fun _ => ret (Some boom)))
    = Returned (Some (errors_join boom rollbackFailed)).
Proof.
  apply (rdbms_DoTx_joins_rollback_error options
           (transaction (Some rollbackFailed) None)
           (RdbmsImpl.NewRdbms (connection (Some rollbackFailed) None) [])
           (fun _ => ret (Some boom)) boom rollbackFailed []);
    reflexivity.
Defined.

(** C1 fails on [DoTx] of [sqlxTransaction]: when the work returns [boom]
    and the rollback fails, the result is the rollback error alone, and
    [boom] is not on its chain. *)
Theorem sqlxTransaction_DoTx_drops_work_error :
  fst (DbTxImpl.DoTx
         (DbTxImpl.NewSqlxTransaction (connection (Some rollbackFailed) None))
         (Some options) (fun _ => ret (Some boom)))
    = Returned (Some rollbackFailed) /\
  errors_Is (Some rollbackFailed) (Some boom) = false /\
  errors_Is (Some rollbackFailed) (Some rollbackFailed) = true.
Proof. repeat split. Qed.

End DoTxScenarios.

(** ** The facade *)

Section QuerySqFacts.

Variable query : squirrel.Sqlizer.
Variable stmt : string.
Variable args : list value.
Hypothesis rendered : squirrel.ToSql query = (stmt, args, None).

Lemma closeRows_events (closer : span -> sqlx.Rows -> M unit)
  (sp : span) (rows : sqlx.Rows) :
  closer = RdbmsImpl.closeRows \/ closer = RdbmsV1.closeRows ->
  exists post,
    closer sp rows = (Returned tt, EvRowsClose :: post) /\
    forall e, sqlx.Close_result rows = Some e ->
      In (EvSetAttributes sp closeFailedAttr) post /\
      (errors_is e sql_ErrNoRows = false -> In (EvRecordError sp e) post).
Proof.
  intros [-> | ->]; unfold RdbmsImpl.closeRows, RdbmsV1.closeRows;
    unfold_go; cbn;
    (destruct (sqlx.Close_result rows) as [e |] eqn:Ec; cbn;
     [ rewrite (recordError_split sp (Some e)); cbn; norm_log;
       eexists; split; [reflexivity |];
       intros e' [= <-]; split;
       [ rewrite in_app_iff; right; left; reflexivity
       | intros Hne; rewrite (recordError_records sp e Hne); left; reflexivity ]
     | eexists; split; [reflexivity |]; intros e' [=] ]).
Qed.

Lemma rdbmsV1_QuerySq_closes (s : RdbmsV1.rdbms) (callback : callbackRows)
  (rows : sqlx.Rows) (result : outcome (option error)) (l : log) :
  QueryxContext_result (RdbmsV1.db s) stmt args = inl rows ->
  callback rows = (result, l) ->
  exists post,
    RdbmsV1.QuerySq s query callback =
      (result,
       [EvSpanStart stmt (RdbmsV1.spanOptions stmt args);
        EvQueryx (on (RdbmsV1.db s)) stmt args] ++ l ++ EvRowsClose :: post) /\
    forall e, sqlx.Close_result rows = Some e ->
      In (EvSetAttributes stmt closeFailedAttr) post /\
      (errors_is e sql_ErrNoRows = false -> In (EvRecordError stmt e) post).
Proof.
  intros Hq Hc. unfold RdbmsV1.QuerySq. rewrite rendered.
  destruct (closeRows_events RdbmsV1.closeRows stmt rows (or_intror eq_refl))
    as (post & Eclose & Hpost).
  unfold_go. cbn. rewrite Hq. cbn. rewrite Hc, Eclose. cbn. norm_log.
  exists (post ++ [EvSpanEnd stmt]). split; [reflexivity |].
  intros e He. destruct (Hpost e He) as [Ha Hr]. split.
  - apply in_or_app. left. exact Ha.
  - intros Hne. apply in_or_app. left. exact (Hr Hne).
Qed.

Lemma rdbms_QuerySq_closes (s : RdbmsImpl.rdbms) (f : RdbmsImpl.SpanNameFunc)
  (name : string) (callback : callbackRows)
  (rows : sqlx.Rows) (result : outcome (option error)) (l : log) :
  RdbmsImpl.spanNameFunc s = Some f ->
  f stmt = Returned name ->
  QueryxContext_result (RdbmsImpl.queryExecutor s) stmt args = inl rows ->
  callback rows = (result, l) ->
  exists opts post,
    RdbmsImpl.QuerySq s query callback =
      (result,
       [EvSpanStart name opts;
        EvQueryx (on (RdbmsImpl.queryExecutor s)) stmt args]
         ++ l ++ EvRowsClose :: post) /\
    forall e, sqlx.Close_result rows = Some e ->
      In (EvSetAttributes name closeFailedAttr) post /\
      (errors_is e sql_ErrNoRows = false -> In (EvRecordError name e) post).
Proof.
  intros Hs Hf Hq Hc. unfold RdbmsImpl.QuerySq. rewrite rendered.
  destruct (closeRows_events RdbmsImpl.closeRows name rows (or_introl eq_refl))
    as (post & Eclose & Hpost).
  unfold RdbmsImpl.call_spanNameFunc, RdbmsImpl.commonAttribute,
    RdbmsImpl.sqlOperationName.
  rewrite Hs, Hf. unfold_go. cbn. rewrite Hq. cbn. rewrite Hc, Eclose. cbn.
  norm_log.
  eexists. exists (post ++ [EvSpanEnd name]). split; [reflexivity |].
  intros e He. destruct (Hpost e He) as [Ha Hr]. split.
  - apply in_or_app. left. exact Ha.
  - intros Hne. apply in_or_app. left. exact (Hr Hne).
Qed.

End QuerySqFacts.

(** C8.  When the execute of [QuerySq] succeeds, the rows are closed after
    the row handler ended and before [QuerySq] ends; a failure of that close
    is put on the span (the attribute, and the error record unless the error
    is [sql.ErrNoRows]); and the outcome of [QuerySq] is the outcome of the
    row handler, whatever the close answered.  This holds of [QuerySq] of
    src/rdbms_impl.go and of src/unnamed/part_004. *)
Theorem QuerySq_closes_rows (query : squirrel.Sqlizer) (stmt : string)
  (args : list value) (callback : callbackRows) (rows : sqlx.Rows)
  (result : outcome (option error)) (l : log) :
  squirrel.ToSql query = (stmt, args, None) ->
  callback rows = (result, l) ->
  (forall (s : RdbmsImpl.rdbms) (f : RdbmsImpl.SpanNameFunc) (name : string),
     RdbmsImpl.spanNameFunc s = Some f ->
     f stmt = Returned name ->
     QueryxContext_result (RdbmsImpl.queryExecutor s) stmt args = inl rows ->
     exists opts post,
       RdbmsImpl.QuerySq s query callback =
         (result,
          [EvSpanStart name opts;
           EvQueryx (on (RdbmsImpl.queryExecutor s)) stmt args]
            ++ l ++ EvRowsClose :: post) /\
       forall e, sqlx.Close_result rows = Some e ->
         In (EvSetAttributes name closeFailedAttr) post /\
         (errors_is e sql_ErrNoRows = false ->
          In (EvRecordError name e) post)) /\
  (forall (s : RdbmsV1.rdbms),
     QueryxContext_result (RdbmsV1.db s) stmt args = inl rows ->
     exists post,
       RdbmsV1.QuerySq s query callback =
         (result,
          [EvSpanStart stmt (RdbmsV1.spanOptions stmt args);
           EvQueryx (on (RdbmsV1.db s)) stmt args]
            ++ l ++ EvRowsClose :: post) /\
       forall e, sqlx.Close_result rows = Some e ->
         In (EvSetAttributes stmt closeFailedAttr) post /\
         (errors_is e sql_ErrNoRows = false ->
          In (EvRecordError stmt e) post)).
Proof.
  intros Hr Hc. split.
  - intros s f name Hs Hf Hq.
    exact (rdbms_QuerySq_closes query stmt args Hr s f name callback rows
             result l Hs Hf Hq Hc).
  - intros s Hq.
    exact (rdbmsV1_QuerySq_closes query stmt args Hr s callback rows
             result l Hq Hc).
Qed.

Section QuerySqScenarios.

Import Scenario.

Lemma QuerySq_closes_rows_witness :
  fst (RdbmsImpl.QuerySq (RdbmsImpl.NewRdbms (plain (Some closeFailed)
                                                (inl (VInt 1))) [])
         selectUser (fun _ => ret (Some boom)))
    = Returned (Some boom) /\
  fst (RdbmsV1.QuerySq
         (RdbmsV1.NewRdbms (executor OnDB (Some closeFailed) (inl (VInt 1))))
         selectUser (fun _ => ret None))
    = Returned None.
Proof.
  split.
  - destruct (proj1 (QuerySq_closes_rows selectUser
                       "SELECT * FROM users WHERE id = ?" [VInt 1]
                       (fun _ => ret (Some boom))
                       {| sqlx.Close_result := Some closeFailed |}
                       (Returned (Some boom)) [] eq_refl eq_refl)
                (RdbmsImpl.NewRdbms (plain (Some closeFailed)
                                       (inl (VInt 1))) [])
                RdbmsImpl.defaultSpanNameFN "SELECT * FROM u..."
                eq_refl eq_refl eq_refl) as (opts & post & E & _).
    rewrite E. reflexivity.
  - destruct (proj2 (QuerySq_closes_rows selectUser
                       "SELECT * FROM users WHERE id = ?" [VInt 1]
                       (fun _ => ret None)
                       {| sqlx.Close_result := Some closeFailed |}
                       (Returned None) [] eq_refl eq_refl)
                (RdbmsV1.NewRdbms
                   (executor OnDB (Some closeFailed) (inl (VInt 1))))
                eq_refl) as (post & E & _).
    rewrite E. reflexivity.
Defined.

End QuerySqScenarios.

Lemma NewRdbms_spanNameFunc (opt : list RdbmsImpl.optionFunc) :
  Forall RdbmsImpl.keepsSpanName opt ->
  forall d, RdbmsImpl.spanNameFunc (RdbmsImpl.NewRdbms d opt)
            = Some RdbmsImpl.defaultSpanNameFN.
Proof.
  intros Hall d. unfold RdbmsImpl.NewRdbms.
  match goal with
  | |- RdbmsImpl.spanNameFunc (fold_left _ _ ?r0) = _ =>
      assert (H0 : RdbmsImpl.spanNameFunc r0
                   = Some RdbmsImpl.defaultSpanNameFN) by reflexivity;
      generalize dependent r0
  end.
  induction Hall as [| fo opt Hfo _ IH]; intros r0 H0; [exact H0 |].
  cbn [fold_left]. apply IH. destruct Hfo; exact H0.
Qed.

Lemma defaultSpanNameFN_short (stmt : string) :
  (String.length stmt < 15)%nat ->
  RdbmsImpl.defaultSpanNameFN stmt
    = Panicked (PanicSliceBounds 15 (String.length stmt)).
Proof.
  intros Hlen. unfold RdbmsImpl.defaultSpanNameFN.
  destruct (Nat.ltb_spec (String.length stmt) 15); [reflexivity | lia].
Qed.

(** C9.  On a facade built by [NewRdbms] with no [WithSpanNameFunc] option,
    a statement of fewer than 15 bytes makes [defaultSpanNameFN] fault on the
    slice [s[0:15]], so [QuerySq], [ExecSq] and [QueryRowSq] panic with that
    fault and cause no event: no span is started and nothing is executed. *)
Theorem short_statement_panics (d : DB) (opt : list RdbmsImpl.optionFunc)
  (query : squirrel.Sqlizer) (stmt : string) (args : list value) :
  Forall RdbmsImpl.keepsSpanName opt ->
  squirrel.ToSql query = (stmt, args, None) ->
  (String.length stmt < 15)%nat ->
  let fault := PanicSliceBounds 15 (String.length stmt) in
  RdbmsImpl.defaultSpanNameFN stmt = Panicked fault /\
  (forall callback,
     RdbmsImpl.QuerySq (RdbmsImpl.NewRdbms d opt) query callback
       = (Panicked fault, [])) /\
  RdbmsImpl.ExecSq (RdbmsImpl.NewRdbms d opt) query = (Panicked fault, []) /\
  (forall scanType dest,
     RdbmsImpl.QueryRowSq (RdbmsImpl.NewRdbms d opt) query scanType dest
       = (Panicked fault, [])).
Proof.
  intros Hopt Hr Hlen fault.
  pose proof (NewRdbms_spanNameFunc opt Hopt d) as Hs.
  pose proof (defaultSpanNameFN_short stmt Hlen) as Hf.
  split; [exact Hf |].
  unfold RdbmsImpl.QuerySq, RdbmsImpl.ExecSq, RdbmsImpl.QueryRowSq,
    RdbmsImpl.call_spanNameFunc.
  rewrite Hr, Hs, Hf. repeat split.
Qed.

Lemma short_statement_panics_witness :
  RdbmsImpl.QuerySq (RdbmsImpl.NewRdbms (Scenario.connection None None)
                       [RdbmsImpl.WithConfig 5432 "localhost" "app"])
    Scenario.selectOne (fun _ => ret None)
    = (Panicked (PanicSliceBounds 15 8), []).
Proof.
  apply (short_statement_panics (Scenario.connection None None)
           [RdbmsImpl.WithConfig 5432 "localhost" "app"]
           Scenario.selectOne "SELECT 1" []).
  - repeat constructor.
  - reflexivity.
  - cbn. lia.
Defined.

(** ** Single-row reads *)

(** C5 fails on [QueryRowSq] of src/rdbms_impl.go: when the scan finds no
    row the result wraps [sql.ErrNoRows] alone; [ErrRecordNoRows] is not on
    its chain.  No error is recorded on the span. *)
Theorem rdbms_QueryRowSq_lacks_sentinel :
  let s := RdbmsImpl.NewRdbms (Scenario.plain None (inr sql_ErrNoRows)) [] in
  let r := RdbmsImpl.QueryRowSq s Scenario.selectUser
             QueryRowScanTypeDefault VNil in
  let tagged := errTracer (pkg ++ ".(*rdbms).QueryRowSq:221") sql_ErrNoRows in
  fst r = Returned (Some tagged, VNil) /\
  errors_Is (Some tagged) (Some sql_ErrNoRows) = true /\
  errors_Is (Some tagged) (Some ErrRecordNoRows) = false /\
  existsb (fun ev => match ev with EvRecordError _ _ => true | _ => false end)
    (snd r) = false.
Proof. cbv zeta. repeat split. Qed.

(** X2.  In [QueryRowSq] of src/unnamed/part_004 the no-row result joins
    [ErrRecordNoRows], which stays on the chain after tagging, and the span
    gets no error record: the events are the start of the span, the read,
    the scan and the end of the span. *)
Theorem rdbmsV1_QueryRowSq_marks_no_rows (s : RdbmsV1.rdbms)
  (query : squirrel.Sqlizer) (stmt : string) (args : list value)
  (scanType : QueryRowScanType) (dest : value) (e : error) :
  squirrel.ToSql query = (stmt, args, None) ->
  (let row := QueryRowxContext_result (RdbmsV1.db s) stmt args in
   if scanType =? QueryRowScanTypeStruct
   then sqlx.StructScan_result row
   else sqlx.Scan_result row) = inr e ->
  errors_is e sql_ErrNoRows = true ->
  exists r,
    RdbmsV1.QueryRowSq s query scanType dest =
      (Returned (Some r, dest),
       [EvSpanStart stmt (RdbmsV1.spanOptions stmt args);
        EvQueryRowx (on (RdbmsV1.db s)) stmt args;
        if scanType =? QueryRowScanTypeStruct then EvStructScan else EvScan;
        EvSpanEnd stmt]) /\
    errors_is r ErrRecordNoRows = true /\
    errors_is r e = true.
Proof.
  intros Hr Hscan Hno. cbv zeta in Hscan.
  unfold RdbmsV1.QueryRowSq. rewrite Hr. unfold_go. cbn.
  destruct (scanType =? QueryRowScanTypeStruct); cbn; rewrite Hscan; cbn;
    rewrite Hno; cbn;
    (eexists; split; [reflexivity |]; split;
     [ apply errors_is_errTracer, errors_is_join_r, errors_is_refl
     | apply errors_is_errTracer, errors_is_join_l, errors_is_refl ]).
Qed.

Lemma rdbmsV1_QueryRowSq_marks_no_rows_witness :
  exists r,
    fst (RdbmsV1.QueryRowSq
           (RdbmsV1.NewRdbms
              (Scenario.executor OnDB None (inr sql_ErrNoRows)))
           Scenario.selectUser QueryRowScanTypeDefault VNil)
      = Returned (Some r, VNil) /\
    errors_is r ErrRecordNoRows = true.
Proof.
  destruct (rdbmsV1_QueryRowSq_marks_no_rows
              (RdbmsV1.NewRdbms
                 (Scenario.executor OnDB None (inr sql_ErrNoRows)))
              Scenario.selectUser "SELECT * FROM users WHERE id = ?"
              [VInt 1] QueryRowScanTypeDefault VNil sql_ErrNoRows
              eq_refl eq_refl eq_refl) as (r & E & Hs & _).
  exists r. rewrite E. split; [reflexivity | exact Hs].
Defined.

(** ** Paged reads *)

Lemma rdbmsV1_QuerySqPagination_executes (s : RdbmsV1.rdbms)
  (countQuery query : squirrel.SelectBuilder)
  (p : Pagination.PaginationInput) (callback : callbackRows)
  (cstmt stmt : string) (cargs args : list value) (total : value) :
  squirrel.render countQuery (squirrel.limit countQuery)
    (squirrel.offset countQuery) = (cstmt, cargs, None) ->
  sqlx.Scan_result (QueryRowxContext_result (RdbmsV1.db s) cstmt cargs)
    = inl total ->
  squirrel.render query (Some (uint64 (Pagination.PageSize p)))
    (Some (uint64 (Pagination.Offset p))) = (stmt, args, None) ->
  In (EvQueryx (on (RdbmsV1.db s)) stmt args)
     (snd (RdbmsV1.QuerySqPagination s countQuery query p callback)).
Proof.
  intros Hc Hs Hq.
  unfold RdbmsV1.QuerySqPagination, RdbmsV1.QueryRowSq, RdbmsV1.QuerySq,
    RdbmsV1.rowQuery, squirrel.Select_Sqlizer, squirrel.Offset, squirrel.Limit.
  cbn [squirrel.ToSql squirrel.render squirrel.limit squirrel.offset].
  rewrite Hc, Hq. unfold_go. cbn. rewrite Hs. cbn.
  destruct (QueryxContext_result (RdbmsV1.db s) stmt args) as [rows | e]; cbn.
  - destruct (callback rows) as [res l].
    destruct (RdbmsV1.closeRows stmt rows) as [[[] | q] l'];
      destruct res as [[e |] | pv]; cbn; auto 10.
  - rewrite (recordError_split _ (Some e)). cbn. auto 10.
Qed.

Lemma rdbms_QuerySqPagination_executes (s : RdbmsImpl.rdbms)
  (f : RdbmsImpl.SpanNameFunc)
  (countQuery query : squirrel.SelectBuilder)
  (p : Pagination.PaginationInput) (callback : callbackRows)
  (cstmt stmt cname name : string) (cargs args : list value) (total : value) :
  RdbmsImpl.spanNameFunc s = Some f ->
  f cstmt = Returned cname ->
  f stmt = Returned name ->
  squirrel.render countQuery (squirrel.limit countQuery)
    (squirrel.offset countQuery) = (cstmt, cargs, None) ->
  sqlx.Scan_result
    (QueryRowxContext_result (RdbmsImpl.queryExecutor s) cstmt cargs)
    = inl total ->
  squirrel.render query (Some (uint64 (Pagination.PageSize p)))
    (Some (uint64 (Pagination.Offset p))) = (stmt, args, None) ->
  In (EvQueryx (on (RdbmsImpl.queryExecutor s)) stmt args)
     (snd (RdbmsImpl.QuerySqPagination s countQuery query p callback)).
Proof.
  intros Hf Hfc Hfq Hc Hs Hq.
  unfold RdbmsImpl.QuerySqPagination, RdbmsImpl.QueryRowSq, RdbmsImpl.QuerySq,
    RdbmsImpl.rowQuery, squirrel.Select_Sqlizer, squirrel.Offset,
    squirrel.Limit, RdbmsImpl.call_spanNameFunc, RdbmsImpl.commonAttribute,
    RdbmsImpl.sqlOperationName.
  cbn [squirrel.ToSql squirrel.render squirrel.limit squirrel.offset].
  rewrite Hc, Hq, Hf, Hfc, Hfq. unfold_go. cbn. rewrite Hs. cbn.
  destruct (QueryxContext_result (RdbmsImpl.queryExecutor s) stmt args)
    as [rows | e]; cbn.
  - destruct (callback rows) as [res l].
    destruct (RdbmsImpl.closeRows name rows) as [[[] | q] l'];
      destruct res as [[e |] | pv]; cbn; auto 10.
  - rewrite (recordError_split _ (Some e)). cbn. auto 10.
Qed.

(** C10.  [QuerySqPagination] attaches [uint64(PageSize)] as the limit and
    [uint64(Offset())] as the offset of the row query, and runs the statement
    rendered with them once the count is read.  A negative page size or a
    negative offset is neither refused nor clamped: it becomes the value
    plus 2^64, which is at least 2^63.  This holds of [QuerySqPagination] of
    src/rdbms_impl.go and of src/unnamed/part_004. *)
Theorem QuerySqPagination_negative_wraps (query : squirrel.SelectBuilder)
  (p : Pagination.PaginationInput) :
  in_int64 (Pagination.Page p) -> in_int64 (Pagination.PageSize p) ->
  let lim := uint64 (Pagination.PageSize p) in
  let off := uint64 (Pagination.Offset p) in
  (Pagination.PageSize p < 0 ->
     lim = Pagination.PageSize p + two64 /\ two63 <= lim < two64) /\
  (Pagination.Offset p < 0 ->
     off = Pagination.Offset p + two64 /\ two63 <= off < two64) /\
  (squirrel.limit (RdbmsImpl.rowQuery query p) = Some lim /\
   squirrel.offset (RdbmsImpl.rowQuery query p) = Some off /\
   squirrel.limit (RdbmsV1.rowQuery query p) = Some lim /\
   squirrel.offset (RdbmsV1.rowQuery query p) = Some off) /\
  (forall (s : RdbmsImpl.rdbms) f countQuery callback
          cstmt stmt cname name cargs args total,
     RdbmsImpl.spanNameFunc s = Some f ->
     f cstmt = Returned cname ->
     f stmt = Returned name ->
     squirrel.render countQuery (squirrel.limit countQuery)
       (squirrel.offset countQuery) = (cstmt, cargs, None) ->
     sqlx.Scan_result
       (QueryRowxContext_result (RdbmsImpl.queryExecutor s) cstmt cargs)
       = inl total ->
     squirrel.render query (Some lim) (Some off) = (stmt, args, None) ->
     In (EvQueryx (on (RdbmsImpl.queryExecutor s)) stmt args)
        (snd (RdbmsImpl.QuerySqPagination s countQuery query p callback))) /\
  (forall (s : RdbmsV1.rdbms) countQuery callback
          cstmt stmt cargs args total,
     squirrel.render countQuery (squirrel.limit countQuery)
       (squirrel.offset countQuery) = (cstmt, cargs, None) ->
     sqlx.Scan_result (QueryRowxContext_result (RdbmsV1.db s) cstmt cargs)
       = inl total ->
     squirrel.render query (Some lim) (Some off) = (stmt, args, None) ->
     In (EvQueryx (on (RdbmsV1.db s)) stmt args)
        (snd (RdbmsV1.QuerySqPagination s countQuery query p callback))).
Proof.
  intros HP HS lim off. subst lim off.
  split; [| split; [| split; [| split]]].
  - intros Hneg. destruct (uint64_negative _ HS Hneg) as [E B].
    rewrite E. auto.
  - intros Hneg.
    assert (HO : in_int64 (Pagination.Offset p)).
    { unfold Pagination.Offset.
      destruct (0 <? Pagination.Page p).
      - apply wrap64_in_int64.
      - unfold in_int64. rewrite two63_val. lia. }
    destruct (uint64_negative _ HO Hneg) as [E B]. rewrite E. auto.
  - repeat split.
  - intros s f countQuery callback cstmt stmt cname name cargs args total
      Hf Hfc Hfq Hc Hs Hq.
    exact (rdbms_QuerySqPagination_executes s f countQuery query p callback
             cstmt stmt cname name cargs args total Hf Hfc Hfq Hc Hs Hq).
  - intros s countQuery callback cstmt stmt cargs args total Hc Hs Hq.
    exact (rdbmsV1_QuerySqPagination_executes s countQuery query p callback
             cstmt stmt cargs args total Hc Hs Hq).
Qed.

Lemma QuerySqPagination_negative_wraps_witness :
  let p := {| Pagination.Page := 2; Pagination.PageSize := -10 |} in
  uint64 (Pagination.PageSize p) = 18446744073709551606 /\
  uint64 (Pagination.Offset p) = 18446744073709551606 /\
  In (EvQueryx OnDB
        "SELECT id FROM users LIMIT 18446744073709551606 OFFSET 18446744073709551606"
        [])
     (snd (RdbmsV1.QuerySqPagination
             (RdbmsV1.NewRdbms (Scenario.executor OnDB None (inl (VInt 25))))
             Scenario.countUsers Scenario.listUsers p (fun _ => ret None))).
Proof.
  cbv zeta.
  assert (R : forall z, - 100 <= z <= 100 -> in_int64 z)
    by (unfold in_int64; rewrite two63_val; lia).
  assert (HP : in_int64 2) by (apply R; lia).
  assert (HS : in_int64 (-10)) by (apply R; lia).
  destruct (QuerySqPagination_negative_wraps Scenario.listUsers
              {| Pagination.Page := 2; Pagination.PageSize := -10 |} HP HS)
    as (Hl & Ho & _ & _ & Hrun).
  split; [| split].
  - apply Hl. reflexivity.
  - apply Ho. reflexivity.
  - apply (Hrun (RdbmsV1.NewRdbms
                   (Scenario.executor OnDB None (inl (VInt 25))))
             Scenario.countUsers (fun _ => ret None)
             "SELECT COUNT(*) FROM users" _ [] [] (VInt 25));
      reflexivity.
Defined.

(** * Further properties *)

(** ** Reading what [recordError] leaves *)

Lemma recordError_resolutions (sp : span) (err : option error) :
  resolutions (snd (recordError sp err)) = [].
Proof.
  unfold recordError. destruct err as [e |]; [| reflexivity].
  destruct (errors_is e sql_ErrNoRows); reflexivity.
Qed.

Lemma recordError_executions (sp : span) (err : option error) :
  executions (snd (recordError sp err)) = [].
Proof.
  unfold recordError. destruct err as [e |]; [| reflexivity].
  destruct (errors_is e sql_ErrNoRows); reflexivity.
Qed.

Lemma recordError_without_records (sp : span) (err : option error) :
  without_error_records (snd (recordError sp err)) = [].
Proof.
  unfold recordError. destruct err as [e |]; [| reflexivity].
  destruct (errors_is e sql_ErrNoRows); reflexivity.
Qed.

Lemma resolutions_app (l1 l2 : log) :
  resolutions (l1 ++ l2) = resolutions l1 ++ resolutions l2.
Proof. apply filter_app. Qed.

Lemma executions_app (l1 l2 : log) :
  executions (l1 ++ l2) = executions l1 ++ executions l2.
Proof. apply filter_app. Qed.

Lemma without_error_records_app (l1 l2 : log) :
  without_error_records (l1 ++ l2)
    = without_error_records l1 ++ without_error_records l2.
Proof. apply filter_app. Qed.

Lemma resolutions_cons (ev : event) (l : log) :
  resolutions (ev :: l)
    = if is_resolution ev then ev :: resolutions l else resolutions l.
Proof. reflexivity. Qed.

Lemma executions_cons (ev : event) (l : log) :
  executions (ev :: l)
    = if is_execution ev then ev :: executions l else executions l.
Proof. reflexivity. Qed.

Lemma without_error_records_cons (ev : event) (l : log) :
  without_error_records (ev :: l)
    = if is_error_record ev then without_error_records l
      else ev :: without_error_records l.
Proof. unfold without_error_records. cbn. destruct (is_error_record ev); reflexivity. Qed.

Ltac read_log :=
  repeat (rewrite ?resolutions_app, ?executions_app,
            ?without_error_records_app,
            ?resolutions_cons, ?executions_cons, ?without_error_records_cons,
            ?recordError_resolutions, ?recordError_executions,
            ?recordError_without_records;
          cbn [is_resolution is_execution is_error_record app]).

(** ** Transactions: the other ways out *)

Arguments RdbmsImpl.resolveTx : simpl never.
Arguments DbTxImpl.resolveTx : simpl never.

Lemma rdbms_resolveTx_resolutions (sp : span) (tx : Tx)
  (p : option panic_value) (err : option error) :
  resolutions (snd (RdbmsImpl.resolveTx sp tx p err))
    = [match p, err with None, None => EvCommit | _, _ => EvRollback end].
Proof.
  unfold RdbmsImpl.resolveTx. unfold_go.
  destruct p as [payload |]; [| destruct err as [e |]]; cbn;
    [ destruct (Rollback_result tx) as [rb |]
    | destruct (Rollback_result tx) as [rb |]
    | destruct (Commit_result tx) as [ec |] ]; cbn;
    repeat step_recordError; cbn; subst; read_log; reflexivity.
Qed.

Lemma sqlxTransaction_resolveTx_resolutions (sp : span) (tx : Tx)
  (p : option panic_value) (err : option error) :
  resolutions (snd (DbTxImpl.resolveTx sp tx p err))
    = [match p, err with None, None => EvCommit | _, _ => EvRollback end].
Proof.
  unfold DbTxImpl.resolveTx. unfold_go.
  destruct p as [payload |]; [| destruct err as [e |]]; cbn;
    [ | destruct (Rollback_result tx) as [rb |]
      | destruct (Commit_result tx) as [ec |] ]; cbn;
    repeat step_recordError; cbn; subst; read_log; reflexivity.
Qed.

(** What the deferred closure is given after the work ended with [res]. *)
Lemma resolution_of_recovered (res : outcome (option error)) :
  [match match res with Panicked p => Some p | Returned _ => None end,
         match res with Returned err => err | Panicked _ => None end with
   | None, None => EvCommit
   | _, _ => EvRollback
   end] = [resolution_of res].
Proof. destruct res as [[e |] | p]; reflexivity. Qed.

Section DoTxExits.

Variable o : sql.TxOptions.

(** X3.  When [BeginTxx] fails, [DoTx] (of [rdbms] and of [sqlxTransaction])
    and [DoTxContext] return the tagged error of [BeginTxx], record it on
    the span and end the span; the work is not run and nothing is committed
    or rolled back. *)
Theorem DoTx_begin_failure (e : error) :
  (forall (s : RdbmsImpl.rdbms) fn,
     BeginTxx_result (RdbmsImpl.db s) o = inr e ->
     RdbmsImpl.DoTx s (Some o) fn =
       (Returned (Some (errTracer (pkg ++ ".(*rdbms).DoTx:268") e)),
        opened (RdbmsImpl.txSpanOptions o)
          ++ snd (recordError "do transaction" (Some e))
          ++ [EvSpanEnd "do transaction"]) /\
     RdbmsImpl.DoTxContext s (Some o) fn =
       (Returned (Some (errTracer (pkg ++ ".(*rdbms).DoTxContext:326") e)),
        opened (RdbmsImpl.txSpanOptions o)
          ++ snd (recordError "do transaction" (Some e))
          ++ [EvSpanEnd "do transaction"])) /\
  (forall (s : DbTxImpl.sqlxTransaction) fn,
     BeginTxx_result (DbTxImpl.db s) o = inr e ->
     DbTxImpl.DoTx s (Some o) fn =
       (Returned (Some (errTracer (pkg ++ ".(*sqlxTransaction).DoTx:39") e)),
        opened (DbTxImpl.txSpanOptions o)
          ++ snd (recordError "do transaction" (Some e))
          ++ [EvSpanEnd "do transaction"])) /\
  (forall caller, errors_is (errTracer caller e) e = true) /\
  resolutions (snd (recordError "do transaction" (Some e))) = [].
Proof.
  split; [| split; [| split]].
  - intros s fn Hb. split.
    + unfold RdbmsImpl.DoTx, opened. unfold_go. cbn. rewrite Hb. cbn.
      rewrite (recordError_split _ (Some e)). cbn. norm_log. reflexivity.
    + unfold RdbmsImpl.DoTxContext, opened. unfold_go. cbn. rewrite Hb. cbn.
      rewrite (recordError_split _ (Some e)). cbn. norm_log. reflexivity.
  - intros s fn Hb.
    unfold DbTxImpl.DoTx, opened. unfold_go. cbn. rewrite Hb. cbn.
    rewrite (recordError_split _ (Some e)). cbn. norm_log. reflexivity.
  - intros caller. apply errors_is_errTracer, errors_is_refl.
  - apply recordError_resolutions.
Qed.

Variable tx : Tx.

Lemma rdbms_DoTx_shape (s : RdbmsImpl.rdbms)
  (fn : RdbmsImpl.rdbms -> M (option error))
  (res : outcome (option error)) (l : log) :
  BeginTxx_result (RdbmsImpl.db s) o = inl tx ->
  fn (RdbmsImpl.injectTx s tx) = (res, l) ->
  exists r post,
    RdbmsImpl.DoTx s (Some o) fn =
      (r, opened (RdbmsImpl.txSpanOptions o) ++ l ++ post
            ++ [EvSpanEnd "do transaction"]) /\
    resolutions post = [resolution_of res].
Proof.
  intros Hb Hf. unfold RdbmsImpl.DoTx, opened.
  unfold_go. cbn. rewrite Hb. cbn. rewrite Hf.
  destruct res as [[e |] | p]; cbn.
  - rewrite (recordError_split _ (Some e)). cbn.
    pose proof (rdbms_resolveTx_resolutions "do transaction" tx None (Some e))
      as Hres.
    destruct (RdbmsImpl.resolveTx "do transaction" tx None (Some e))
      as [r post]. cbn in *.
    exists r, (snd (recordError "do transaction" (Some e)) ++ post).
    split; [norm_log; reflexivity | read_log; exact Hres].
  - pose proof (rdbms_resolveTx_resolutions "do transaction" tx None None)
      as Hres.
    destruct (RdbmsImpl.resolveTx "do transaction" tx None None)
      as [r post]. cbn in *.
    exists r, post. split; [norm_log; reflexivity | exact Hres].
  - pose proof (rdbms_resolveTx_resolutions "do transaction" tx (Some p) None)
      as Hres.
    destruct (RdbmsImpl.resolveTx "do transaction" tx (Some p) None)
      as [r post]. cbn in *.
    exists r, post. split; [norm_log; reflexivity | exact Hres].
Qed.

Lemma rdbms_DoTxContext_shape (s : RdbmsImpl.rdbms)
  (fn : RdbmsImpl.rdbms -> M (option error))
  (res : outcome (option error)) (l : log) :
  BeginTxx_result (RdbmsImpl.db s) o = inl tx ->
  fn (RdbmsImpl.injectTx s tx) = (res, l) ->
  exists r post,
    RdbmsImpl.DoTxContext s (Some o) fn =
      (r, opened (RdbmsImpl.txSpanOptions o) ++ l ++ post
            ++ [EvSpanEnd "do transaction"]) /\
    resolutions post = [resolution_of res].
Proof.
  intros Hb Hf. unfold RdbmsImpl.DoTxContext, opened.
  unfold_go. cbn. rewrite Hb. cbn. rewrite Hf.
  rewrite <- (resolution_of_recovered res).
  destruct res as [err | p]; cbn;
    match goal with
    | |- context [RdbmsImpl.resolveTx ?sp ?t ?q ?er] =>
        pose proof (rdbms_resolveTx_resolutions sp t q er) as Hres;
        destruct (RdbmsImpl.resolveTx sp t q er) as [r post]
    end; cbn in *;
    exists r, post; (split; [norm_log; reflexivity | exact Hres]).
Qed.

Lemma sqlxTransaction_DoTx_shape (s : DbTxImpl.sqlxTransaction)
  (fn : RdbmsV1.rdbms -> M (option error))
  (res : outcome (option error)) (l : log) :
  BeginTxx_result (DbTxImpl.db s) o = inl tx ->
  fn (RdbmsV1.NewRdbms (Tx_queryExecutor tx)) = (res, l) ->
  exists r post,
    DbTxImpl.DoTx s (Some o) fn =
      (r, opened (DbTxImpl.txSpanOptions o) ++ l ++ post
            ++ [EvSpanEnd "do transaction"]) /\
    resolutions post = [resolution_of res].
Proof.
  intros Hb Hf. unfold DbTxImpl.DoTx, opened.
  unfold_go. cbn. rewrite Hb. cbn. rewrite Hf.
  rewrite <- (resolution_of_recovered res).
  destruct res as [err | p]; cbn;
    match goal with
    | |- context [DbTxImpl.resolveTx ?sp ?t ?q ?er] =>
        pose proof (sqlxTransaction_resolveTx_resolutions sp t q er) as Hres;
        destruct (DbTxImpl.resolveTx sp t q er) as [r post]
    end; cbn in *;
    exists r, post; (split; [norm_log; reflexivity | exact Hres]).
Qed.

(** X4.  Once the transaction is open, however the work ends (nil, an error
    or a panic), what [DoTx] and [DoTxContext] do after the work resolves the
    transaction exactly once, by a commit when the work returned nil and by a
    rollback otherwise, and the span is ended last. *)
Theorem DoTx_resolves_once (res : outcome (option error)) (l : log) :
  (forall (s : RdbmsImpl.rdbms) fn,
     BeginTxx_result (RdbmsImpl.db s) o = inl tx ->
     fn (RdbmsImpl.injectTx s tx) = (res, l) ->
     (exists r post,
        RdbmsImpl.DoTx s (Some o) fn =
          (r, opened (RdbmsImpl.txSpanOptions o) ++ l ++ post
                ++ [EvSpanEnd "do transaction"]) /\
        resolutions post = [resolution_of res]) /\
     (exists r post,
        RdbmsImpl.DoTxContext s (Some o) fn =
          (r, opened (RdbmsImpl.txSpanOptions o) ++ l ++ post
                ++ [EvSpanEnd "do transaction"]) /\
        resolutions post = [resolution_of res])) /\
  (forall (s : DbTxImpl.sqlxTransaction) fn,
     BeginTxx_result (DbTxImpl.db s) o = inl tx ->
     fn (RdbmsV1.NewRdbms (Tx_queryExecutor tx)) = (res, l) ->
     exists r post,
       DbTxImpl.DoTx s (Some o) fn =
         (r, opened (DbTxImpl.txSpanOptions o) ++ l ++ post
               ++ [EvSpanEnd "do transaction"]) /\
       resolutions post = [resolution_of res]).
Proof.
  split.
  - intros s fn Hb Hf. split.
    + exact (rdbms_DoTx_shape s fn res l Hb Hf).
    + exact (rdbms_DoTxContext_shape s fn res l Hb Hf).
  - intros s fn Hb Hf. exact (sqlxTransaction_DoTx_shape s fn res l Hb Hf).
Qed.

End DoTxExits.

(** X5.  Once the transaction is open, [DoTxContext] ends as [DoTx] does on
    the same work: the same outcome and, error records on the span apart,
    the same events.  ([DoTx] also records the error of the work.) *)
Theorem DoTxContext_agrees_with_DoTx (s : RdbmsImpl.rdbms)
  (o : sql.TxOptions) (tx : Tx) (fn : RdbmsImpl.rdbms -> M (option error)) :
  BeginTxx_result (RdbmsImpl.db s) o = inl tx ->
  fst (RdbmsImpl.DoTxContext s (Some o) fn)
    = fst (RdbmsImpl.DoTx s (Some o) fn) /\
  without_error_records (snd (RdbmsImpl.DoTxContext s (Some o) fn))
    = without_error_records (snd (RdbmsImpl.DoTx s (Some o) fn)).
Proof.
  intros Hb. unfold RdbmsImpl.DoTxContext, RdbmsImpl.DoTx.
  unfold_go. cbn. rewrite Hb. cbn.
  destruct (fn (RdbmsImpl.injectTx s tx)) as [[[e |] | p] l]; cbn.
  - rewrite (recordError_split _ (Some e)). cbn.
    destruct (RdbmsImpl.resolveTx "do transaction" tx None (Some e))
      as [r post]. cbn.
    split; [reflexivity |]. norm_log. read_log. reflexivity.
  - destruct (RdbmsImpl.resolveTx "do transaction" tx None None)
      as [r post]. cbn. split; [reflexivity |]. norm_log. reflexivity.
  - destruct (RdbmsImpl.resolveTx "do transaction" tx (Some p) None)
      as [r post]. cbn. split; [reflexivity |]. norm_log. reflexivity.
Qed.

Section DoTxExitScenarios.

Import Scenario.

Lemma DoTx_begin_failure_witness :
  fst (RdbmsImpl.DoTx (RdbmsImpl.NewRdbms (plain None (inl (VInt 1))) [])
         (Some options) (fun _ => panic (PanicValue "not run")))
    = Returned (Some (errTracer (pkg ++ ".(*rdbms).DoTx:268") boom)) /\
  fst (DbTxImpl.DoTx (DbTxImpl.NewSqlxTransaction (plain None (inl (VInt 1))))
         (Some options) (fun _ => panic (PanicValue "not run")))
    = Returned
        (Some (errTracer (pkg ++ ".(*sqlxTransaction).DoTx:39") boom)).
Proof.
  destruct (DoTx_begin_failure options boom) as (H1 & H2 & _).
  split.
  - destruct (H1 (RdbmsImpl.NewRdbms (plain None (inl (VInt 1))) [])
                (fun _ => panic (PanicValue "not run")) eq_refl) as [E _].
    rewrite E. reflexivity.
  - rewrite (H2 (DbTxImpl.NewSqlxTransaction (plain None (inl (VInt 1))))
               (fun _ => panic (PanicValue "not run")) eq_refl).
    reflexivity.
Defined.

Lemma DoTx_resolves_once_witness :
  resolutions
    (snd (RdbmsImpl.DoTx
            (RdbmsImpl.NewRdbms (connection (Some rollbackFailed) None) [])
            (Some options) (fun _ => panic (PanicValue "boom"))))
    = [EvRollback] /\
  resolutions
    (snd (DbTxImpl.DoTx (DbTxImpl.NewSqlxTransaction (connection None None))
            (Some options) (fun _ => ret None)))
    = [EvCommit].
Proof.
  split.
  - destruct (proj1 (proj1 (DoTx_resolves_once options
                              (transaction (Some rollbackFailed) None)
                              (Panicked (PanicValue "boom")) [])
                       (RdbmsImpl.NewRdbms
                          (connection (Some rollbackFailed) None) [])
                       (fun _ => panic (PanicValue "boom"))
                       eq_refl eq_refl)) as (r & post & E & Hres).
    rewrite E. cbn [snd opened]. read_log. rewrite Hres. reflexivity.
  - destruct (proj2 (DoTx_resolves_once options (transaction None None)
                       (Returned None) [])
                (DbTxImpl.NewSqlxTransaction (connection None None))
                (fun _ => ret None) eq_refl eq_refl)
      as (r & post & E & Hres).
    rewrite E. cbn [snd opened]. read_log. rewrite Hres. reflexivity.
Defined.

Lemma DoTxContext_agrees_with_DoTx_witness :
  fst (RdbmsImpl.DoTxContext
         (RdbmsImpl.NewRdbms (connection (Some rollbackFailed) None) [])
         (Some options) (fun _ => ret (Some boom)))
    = Returned (Some (errors_join boom rollbackFailed)).
Proof.
  rewrite (proj1 (DoTxContext_agrees_with_DoTx
                    (RdbmsImpl.NewRdbms
                       (connection (Some rollbackFailed) None) [])
                    options (transaction (Some rollbackFailed) None)
                    (fun _ => ret (Some boom)) eq_refl)).
  reflexivity.
Defined.

End DoTxExitScenarios.

(** ** The facade: the other ways out *)

Arguments RdbmsImpl.commonAttribute : simpl never.
Arguments RdbmsImpl.call_spanNameFunc : simpl never.

(** What naming the span and collecting its options give once the span-name
    function answers. *)
Lemma rdbms_span_prelude (s : RdbmsImpl.rdbms) (f : RdbmsImpl.SpanNameFunc)
  (stmt name : string) (args : list value) :
  RdbmsImpl.spanNameFunc s = Some f ->
  f stmt = Returned name ->
  RdbmsImpl.call_spanNameFunc s stmt = (Returned name, []) /\
  exists opts,
    RdbmsImpl.commonAttribute s stmt args = (Returned opts, []) /\
    In (WithSpanAttributes [AttrString "db.operation.name" name]) opts /\
    In (WithSpanAttributes [AttrString "db.query.text" stmt]) opts /\
    (RdbmsImpl.includeParams s = true ->
       In (WithSpanAttributes [makeParamAttr "db.query.parameter" args])
          opts) /\
    (RdbmsImpl.includeParams s = false ->
       carries_args (WithSpanAttributes (RdbmsImpl.attrs s)) = false ->
       forallb (fun o => negb (carries_args o)) opts = true).
Proof.
  intros Hs Hf.
  unfold RdbmsImpl.call_spanNameFunc, RdbmsImpl.commonAttribute,
    RdbmsImpl.sqlOperationName.
  rewrite Hs, Hf. split; [reflexivity |]. unfold_go. cbn.
  eexists. split; [reflexivity |].
  destruct (RdbmsImpl.config s) as [c |];
    destruct (RdbmsImpl.includeParams s);
    destruct (RdbmsImpl.attrs s) as [| a l] eqn:Ea;
    cbn; repeat split; auto 10; try discriminate;
    intros _ Hc; cbn in Hc; rewrite Hc; reflexivity.
Qed.

Section FacadeExits.

Variable query : squirrel.Sqlizer.
Variable stmt : string.
Variable args : list value.

(** X6.  When the query does not render, [QuerySq], [ExecSq] and
    [QueryRowSq] of both facades return the tagged error of [ToSql] and
    cause no event: no span is started, nothing is executed, the span-name
    function is not called and the destination is left as it was. *)
Theorem render_failure_runs_nothing (e : error) :
  squirrel.ToSql query = (stmt, args, Some e) ->
  (forall (s : RdbmsImpl.rdbms),
     (forall callback,
        RdbmsImpl.QuerySq s query callback =
          (Returned (Some (errTracer (pkg ++ ".(*rdbms).QuerySq:158") e)),
           [])) /\
     RdbmsImpl.ExecSq s query =
       (Returned (None, Some (errTracer (pkg ++ ".(*rdbms).ExecSq:184") e)),
        []) /\
     (forall scanType dest,
        RdbmsImpl.QueryRowSq s query scanType dest =
          (Returned
             (Some (errTracer (pkg ++ ".(*rdbms).QueryRowSq:202") e), dest),
           []))) /\
  (forall (s : RdbmsV1.rdbms),
     (forall callback,
        RdbmsV1.QuerySq s query callback =
          (Returned (Some (errTracer (pkg ++ ".(*rdbms).QuerySq:29") e)),
           [])) /\
     RdbmsV1.ExecSq s query =
       (Returned (None, Some (errTracer (pkg ++ ".(*rdbms).ExecSq:60") e)),
        []) /\
     (forall scanType dest,
        RdbmsV1.QueryRowSq s query scanType dest =
          (Returned
             (Some (errTracer (pkg ++ ".(*rdbms).QueryRowSq:83") e), dest),
           []))) /\
  (forall caller, errors_is (errTracer caller e) e = true).
Proof.
  intros Hr.
  unfold RdbmsImpl.QuerySq, RdbmsImpl.ExecSq, RdbmsImpl.QueryRowSq,
    RdbmsV1.QuerySq, RdbmsV1.ExecSq, RdbmsV1.QueryRowSq.
  rewrite Hr. repeat split.
  intros caller. apply errors_is_errTracer, errors_is_refl.
Qed.

Hypothesis rendered : squirrel.ToSql query = (stmt, args, None).

Lemma rdbms_QuerySq_execute_failure (s : RdbmsImpl.rdbms)
  (f : RdbmsImpl.SpanNameFunc) (name : string) (e : error) :
  RdbmsImpl.spanNameFunc s = Some f ->
  f stmt = Returned name ->
  QueryxContext_result (RdbmsImpl.queryExecutor s) stmt args = inr e ->
  exists opts, forall callback,
    RdbmsImpl.QuerySq s query callback =
      (Returned (Some e),
       [EvSpanStart name opts;
        EvQueryx (on (RdbmsImpl.queryExecutor s)) stmt args]
         ++ snd (recordError name (Some e)) ++ [EvSpanEnd name]).
Proof.
  intros Hs Hf Hq.
  destruct (rdbms_span_prelude s f stmt name args Hs Hf)
    as (Hn & opts & Hopts & _).
  exists opts. intros callback.
  unfold RdbmsImpl.QuerySq. rewrite rendered, Hn, Hopts.
  unfold_go. cbn. rewrite Hq. cbn.
  rewrite (recordError_split _ (Some e)). cbn. norm_log. reflexivity.
Qed.

Lemma rdbmsV1_QuerySq_execute_failure (s : RdbmsV1.rdbms) (e : error) :
  QueryxContext_result (RdbmsV1.db s) stmt args = inr e ->
  forall callback,
    RdbmsV1.QuerySq s query callback =
      (Returned (Some e),
       [EvSpanStart stmt (RdbmsV1.spanOptions stmt args);
        EvQueryx (on (RdbmsV1.db s)) stmt args]
         ++ snd (recordError stmt (Some e)) ++ [EvSpanEnd stmt]).
Proof.
  intros Hq callback.
  unfold RdbmsV1.QuerySq. rewrite rendered.
  unfold_go. cbn. rewrite Hq. cbn.
  rewrite (recordError_split _ (Some e)). cbn. norm_log. reflexivity.
Qed.

(** X7.  When the execute of [QuerySq] fails, [QuerySq] returns the error of
    the driver as it is (not tagged), records it on the span and ends the
    span; the row handler is not run and no rows are closed.  This holds of
    both facades. *)
Theorem QuerySq_execute_failure (e : error) :
  (forall (s : RdbmsImpl.rdbms) (f : RdbmsImpl.SpanNameFunc) (name : string),
     RdbmsImpl.spanNameFunc s = Some f ->
     f stmt = Returned name ->
     QueryxContext_result (RdbmsImpl.queryExecutor s) stmt args = inr e ->
     exists opts, forall callback,
       RdbmsImpl.QuerySq s query callback =
         (Returned (Some e),
          [EvSpanStart name opts;
           EvQueryx (on (RdbmsImpl.queryExecutor s)) stmt args]
            ++ snd (recordError name (Some e)) ++ [EvSpanEnd name])) /\
  (forall (s : RdbmsV1.rdbms),
     QueryxContext_result (RdbmsV1.db s) stmt args = inr e ->
     forall callback,
       RdbmsV1.QuerySq s query callback =
         (Returned (Some e),
          [EvSpanStart stmt (RdbmsV1.spanOptions stmt args);
           EvQueryx (on (RdbmsV1.db s)) stmt args]
            ++ snd (recordError stmt (Some e)) ++ [EvSpanEnd stmt])).
Proof.
  split.
  - intros s f name. apply rdbms_QuerySq_execute_failure.
  - intros s. apply rdbmsV1_QuerySq_execute_failure.
Qed.

Lemma rdbms_ExecSq_runs_once (s : RdbmsImpl.rdbms)
  (f : RdbmsImpl.SpanNameFunc) (name : string) :
  RdbmsImpl.spanNameFunc s = Some f ->
  f stmt = Returned name ->
  exists opts,
    RdbmsImpl.ExecSq s query =
      match ExecContext_result (RdbmsImpl.queryExecutor s) stmt args with
      | inl r =>
          (Returned (Some r, None),
           [EvSpanStart name opts;
            EvExec (on (RdbmsImpl.queryExecutor s)) stmt args;
            EvSpanEnd name])
      | inr e =>
          (Returned (None, Some e),
           [EvSpanStart name opts;
            EvExec (on (RdbmsImpl.queryExecutor s)) stmt args]
             ++ snd (recordError name (Some e)) ++ [EvSpanEnd name])
      end.
Proof.
  intros Hs Hf.
  destruct (rdbms_span_prelude s f stmt name args Hs Hf)
    as (Hn & opts & Hopts & _).
  exists opts.
  unfold RdbmsImpl.ExecSq. rewrite rendered, Hn, Hopts.
  unfold_go. cbn.
  destruct (ExecContext_result (RdbmsImpl.queryExecutor s) stmt args)
    as [r | e]; cbn; [reflexivity |].
  rewrite (recordError_split _ (Some e)). cbn. norm_log. reflexivity.
Qed.

Lemma rdbmsV1_ExecSq_runs_once (s : RdbmsV1.rdbms) :
  RdbmsV1.ExecSq s query =
    match ExecContext_result (RdbmsV1.db s) stmt args with
    | inl r =>
        (Returned (Some r, None),
         [EvSpanStart stmt (RdbmsV1.spanOptions stmt args);
          EvExec (on (RdbmsV1.db s)) stmt args;
          EvSpanEnd stmt])
    | inr e =>
        (Returned (None, Some e),
         [EvSpanStart stmt (RdbmsV1.spanOptions stmt args);
          EvExec (on (RdbmsV1.db s)) stmt args]
           ++ snd (recordError stmt (Some e)) ++ [EvSpanEnd stmt])
    end.
Proof.
  unfold RdbmsV1.ExecSq. rewrite rendered. unfold_go. cbn.
  destruct (ExecContext_result (RdbmsV1.db s) stmt args) as [r | e]; cbn;
    [reflexivity |].
  rewrite (recordError_split _ (Some e)). cbn. norm_log. reflexivity.
Qed.

(** X8.  [ExecSq] hands the rendered statement to the executor exactly once.
    When the write succeeds it returns the driver's result with a nil error
    and records nothing; when it fails it returns a nil result with the
    driver's error as it is (not tagged) and records the error on the span.
    The span is ended either way.  This holds of both facades. *)
Theorem ExecSq_runs_once :
  (forall (s : RdbmsImpl.rdbms) (f : RdbmsImpl.SpanNameFunc) (name : string),
     RdbmsImpl.spanNameFunc s = Some f ->
     f stmt = Returned name ->
     exists opts,
       RdbmsImpl.ExecSq s query =
         match ExecContext_result (RdbmsImpl.queryExecutor s) stmt args with
         | inl r =>
             (Returned (Some r, None),
              [EvSpanStart name opts;
               EvExec (on (RdbmsImpl.queryExecutor s)) stmt args;
               EvSpanEnd name])
         | inr e =>
             (Returned (None, Some e),
              [EvSpanStart name opts;
               EvExec (on (RdbmsImpl.queryExecutor s)) stmt args]
                ++ snd (recordError name (Some e)) ++ [EvSpanEnd name])
         end) /\
  (forall (s : RdbmsV1.rdbms),
     RdbmsV1.ExecSq s query =
       match ExecContext_result (RdbmsV1.db s) stmt args with
       | inl r =>
           (Returned (Some r, None),
            [EvSpanStart stmt (RdbmsV1.spanOptions stmt args);
             EvExec (on (RdbmsV1.db s)) stmt args;
             EvSpanEnd stmt])
       | inr e =>
           (Returned (None, Some e),
            [EvSpanStart stmt (RdbmsV1.spanOptions stmt args);
             EvExec (on (RdbmsV1.db s)) stmt args]
              ++ snd (recordError stmt (Some e)) ++ [EvSpanEnd stmt])
       end).
Proof.
  split.
  - intros s f name. apply rdbms_ExecSq_runs_once.
  - intros s. apply rdbmsV1_ExecSq_runs_once.
Qed.

End FacadeExits.

Section QueryRowSqFacts.

Variable query : squirrel.Sqlizer.
Variable stmt : string.
Variable args : list value.
Hypothesis rendered : squirrel.ToSql query = (stmt, args, None).




End QueryRowSqFacts.

(** ** Paged reads: results *)

Lemma closeRows_quiet (closer : span -> sqlx.Rows -> M unit)
  (sp : span) (rows : sqlx.Rows) :
  closer = RdbmsImpl.closeRows \/ closer = RdbmsV1.closeRows ->
  exists cl,
    closer sp rows = (Returned tt, cl) /\
    executions cl = [] /\ resolutions cl = [].
Proof.
  intros [-> | ->]; unfold RdbmsImpl.closeRows, RdbmsV1.closeRows;
    unfold_go; cbn;
    (destruct (sqlx.Close_result rows) as [e |]; cbn;
     [ rewrite (recordError_split sp (Some e)); cbn
     | ];
     eexists; (split; [reflexivity |]); split; read_log; reflexivity).
Qed.

Section PagedReads.

Import Pagination.

Variable countQuery query : squirrel.SelectBuilder.
Variable p : PaginationInput.
Variable cstmt stmt : string.
Variable cargs args : list value.

Hypothesis count_rendered :
  squirrel.render countQuery (squirrel.limit countQuery)
    (squirrel.offset countQuery) = (cstmt, cargs, None).

Lemma rdbmsV1_QuerySqPagination_count_failure (s : RdbmsV1.rdbms)
  (e : error) :
  sqlx.Scan_result (QueryRowxContext_result (RdbmsV1.db s) cstmt cargs)
    = inr e ->
  exists t l,
    (forall callback,
       RdbmsV1.QuerySqPagination s countQuery query p callback
         = (Returned (RdbmsImpl.noPaginationOutput, Some t), l)) /\
    errors_is t e = true /\
    executions l = [EvQueryRowx (on (RdbmsV1.db s)) cstmt cargs].
Proof.
  intros Hscan.
  unfold RdbmsV1.QuerySqPagination, RdbmsV1.QueryRowSq,
    squirrel.Select_Sqlizer.
  cbn [squirrel.ToSql]. rewrite count_rendered. unfold_go. cbn.
  rewrite Hscan. cbn.
  destruct (errors_is e sql_ErrNoRows) eqn:Hno; cbn.
  - do 2 eexists. split; [intros callback; reflexivity |]. split.
    + apply errors_is_errTracer, errors_is_errTracer, errors_is_join_l,
        errors_is_refl.
    + reflexivity.
  - rewrite (recordError_records _ e Hno). cbn.
    do 2 eexists. split; [intros callback; reflexivity |]. split.
    + apply errors_is_errTracer, errors_is_errTracer, errors_is_refl.
    + reflexivity.
Qed.

Lemma rdbms_QuerySqPagination_count_failure (s : RdbmsImpl.rdbms)
  (f : RdbmsImpl.SpanNameFunc) (cname : string) (e : error) :
  RdbmsImpl.spanNameFunc s = Some f ->
  f cstmt = Returned cname ->
  sqlx.Scan_result
    (QueryRowxContext_result (RdbmsImpl.queryExecutor s) cstmt cargs)
    = inr e ->
  exists t l,
    (forall callback,
       RdbmsImpl.QuerySqPagination s countQuery query p callback
         = (Returned (RdbmsImpl.noPaginationOutput, Some t), l)) /\
    errors_is t e = true /\
    executions l = [EvQueryRowx (on (RdbmsImpl.queryExecutor s)) cstmt cargs].
Proof.
  intros Hs Hf Hscan.
  destruct (rdbms_span_prelude s f cstmt cname cargs Hs Hf)
    as (Hn & opts & Hopts & _).
  unfold RdbmsImpl.QuerySqPagination, RdbmsImpl.QueryRowSq,
    squirrel.Select_Sqlizer.
  cbn [squirrel.ToSql]. rewrite count_rendered, Hn, Hopts. unfold_go. cbn.
  rewrite Hscan. cbn.
  destruct (errors_is e sql_ErrNoRows) eqn:Hno; cbn.
  - do 2 eexists. split; [intros callback; reflexivity |]. split.
    + apply errors_is_errTracer, errors_is_errTracer, errors_is_refl.
    + reflexivity.
  - rewrite (recordError_records _ e Hno). cbn.
    do 2 eexists. split; [intros callback; reflexivity |]. split.
    + apply errors_is_errTracer, errors_is_errTracer, errors_is_refl.
    + reflexivity.
Qed.

(** X10.  When the count of [QuerySqPagination] fails at the scan, the row
    query is not executed and the row handler is not run: the count read is
    the only statement executed, the pagination output is the zero value,
    and the error returned has the scan error on its chain.  This holds of
    both facades. *)
Theorem QuerySqPagination_count_failure (e : error) :
  (forall (s : RdbmsImpl.rdbms) (f : RdbmsImpl.SpanNameFunc) (cname : string),
     RdbmsImpl.spanNameFunc s = Some f ->
     f cstmt = Returned cname ->
     sqlx.Scan_result
       (QueryRowxContext_result (RdbmsImpl.queryExecutor s) cstmt cargs)
       = inr e ->
     exists t l,
       (forall callback,
          RdbmsImpl.QuerySqPagination s countQuery query p callback
            = (Returned (RdbmsImpl.noPaginationOutput, Some t), l)) /\
       errors_is t e = true /\
       executions l
         = [EvQueryRowx (on (RdbmsImpl.queryExecutor s)) cstmt cargs]) /\
  (forall (s : RdbmsV1.rdbms),
     sqlx.Scan_result (QueryRowxContext_result (RdbmsV1.db s) cstmt cargs)
       = inr e ->
     exists t l,
       (forall callback,
          RdbmsV1.QuerySqPagination s countQuery query p callback
            = (Returned (RdbmsImpl.noPaginationOutput, Some t), l)) /\
       errors_is t e = true /\
       executions l = [EvQueryRowx (on (RdbmsV1.db s)) cstmt cargs]).
Proof.
  split.
  - intros s f cname. apply rdbms_QuerySqPagination_count_failure.
  - intros s. apply rdbmsV1_QuerySqPagination_count_failure.
Qed.

Hypothesis rows_rendered :
  squirrel.render query (Some (uint64 (PageSize p)))
    (Some (uint64 (Offset p))) = (stmt, args, None).

Lemma rdbmsV1_QuerySqPagination_result (s : RdbmsV1.rdbms)
  (callback : callbackRows) (total : Z) (rows : sqlx.Rows)
  (cerr : option error) (l : log) :
  sqlx.Scan_result (QueryRowxContext_result (RdbmsV1.db s) cstmt cargs)
    = inl (VInt total) ->
  QueryxContext_result (RdbmsV1.db s) stmt args = inl rows ->
  callback rows = (Returned cerr, l) ->
  exists pre post,
    RdbmsV1.QuerySqPagination s countQuery query p callback =
      (Returned
         match cerr with
         | None =>
             ({| out_Page := Page p; out_PageSize := PageSize p;
                 PageCount := getPageCount (PageSize p) total;
                 TotalData := total |}, None)
         | Some e =>
             (RdbmsImpl.noPaginationOutput,
              Some (errTracer (pkg ++ ".(*rdbms).QuerySqPagination:129") e))
         end,
       pre ++ l ++ post) /\
    executions pre = [EvQueryRowx (on (RdbmsV1.db s)) cstmt cargs;
                      EvQueryx (on (RdbmsV1.db s)) stmt args] /\
    executions post = [].
Proof.
  intros Hscan Hq Hc.
  destruct (closeRows_quiet RdbmsV1.closeRows stmt rows (or_intror eq_refl))
    as (cl & Ecl & Hex & _).
  unfold RdbmsV1.QuerySqPagination, RdbmsV1.QueryRowSq, RdbmsV1.QuerySq,
    RdbmsV1.rowQuery, squirrel.Select_Sqlizer, squirrel.Offset, squirrel.Limit.
  cbn [squirrel.ToSql squirrel.render squirrel.limit squirrel.offset].
  rewrite count_rendered, rows_rendered. unfold_go. cbn.
  rewrite Hscan. cbn. rewrite Hq. cbn. rewrite Hc, Ecl. cbn.
  exists [EvSpanStart cstmt (RdbmsV1.spanOptions cstmt cargs);
          EvQueryRowx (on (RdbmsV1.db s)) cstmt cargs; EvScan;
          EvSpanEnd cstmt;
          EvSpanStart stmt (RdbmsV1.spanOptions stmt args);
          EvQueryx (on (RdbmsV1.db s)) stmt args],
         (cl ++ [EvSpanEnd stmt]).
  split; [| split].
  - destruct cerr as [e |]; cbn; norm_log; reflexivity.
  - reflexivity.
  - read_log. rewrite Hex. reflexivity.
Qed.

Lemma rdbms_QuerySqPagination_result (s : RdbmsImpl.rdbms)
  (f : RdbmsImpl.SpanNameFunc) (cname name : string)
  (callback : callbackRows) (total : Z) (rows : sqlx.Rows)
  (cerr : option error) (l : log) :
  RdbmsImpl.spanNameFunc s = Some f ->
  f cstmt = Returned cname ->
  f stmt = Returned name ->
  sqlx.Scan_result
    (QueryRowxContext_result (RdbmsImpl.queryExecutor s) cstmt cargs)
    = inl (VInt total) ->
  QueryxContext_result (RdbmsImpl.queryExecutor s) stmt args = inl rows ->
  callback rows = (Returned cerr, l) ->
  exists pre post,
    RdbmsImpl.QuerySqPagination s countQuery query p callback =
      (Returned
         match cerr with
         | None =>
             ({| out_Page := Page p; out_PageSize := PageSize p;
                 PageCount := getPageCount (PageSize p) total;
                 TotalData := total |}, None)
         | Some e =>
             (RdbmsImpl.noPaginationOutput,
              Some (errTracer (pkg ++ ".(*rdbms).QuerySqPagination:241") e))
         end,
       pre ++ l ++ post) /\
    executions pre
      = [EvQueryRowx (on (RdbmsImpl.queryExecutor s)) cstmt cargs;
         EvQueryx (on (RdbmsImpl.queryExecutor s)) stmt args] /\
    executions post = [].
Proof.
  intros Hs Hfc Hf Hscan Hq Hc.
  destruct (closeRows_quiet RdbmsImpl.closeRows name rows (or_introl eq_refl))
    as (cl & Ecl & Hex & _).
  destruct (rdbms_span_prelude s f cstmt cname cargs Hs Hfc)
    as (Hcn & copts & Hcopts & _).
  destruct (rdbms_span_prelude s f stmt name args Hs Hf)
    as (Hn & opts & Hopts & _).
  unfold RdbmsImpl.QuerySqPagination, RdbmsImpl.QueryRowSq, RdbmsImpl.QuerySq,
    RdbmsImpl.rowQuery, squirrel.Select_Sqlizer, squirrel.Offset,
    squirrel.Limit.
  cbn [squirrel.ToSql squirrel.render squirrel.limit squirrel.offset].
  rewrite count_rendered, rows_rendered, Hcn, Hcopts, Hn, Hopts.
  unfold_go. cbn.
  rewrite Hscan. cbn. rewrite Hq. cbn. rewrite Hc, Ecl. cbn.
  exists [EvSpanStart cname copts;
          EvQueryRowx (on (RdbmsImpl.queryExecutor s)) cstmt cargs; EvScan;
          EvSpanEnd cname;
          EvSpanStart name opts;
          EvQueryx (on (RdbmsImpl.queryExecutor s)) stmt args],
         (cl ++ [EvSpanEnd name]).
  split; [| split].
  - destruct cerr as [e |]; cbn; norm_log; reflexivity.
  - reflexivity.
  - read_log. rewrite Hex. reflexivity.
Qed.

(** X11.  When the count reads [total] and the row query executes,
    [QuerySqPagination] runs exactly two statements, the count read and then
    the row query rendered with limit [uint64(PageSize)] and offset
    [uint64(Offset())], around the row handler.  If the row handler returns
    nil the result is the page and page size of the input, [total] as the
    total and [getPageCount(PageSize, total)] as the page count, with a nil
    error; if it returns an error the result is the zero output and that
    error, tagged.  This holds of both facades. *)
Theorem QuerySqPagination_result (callback : callbackRows) (total : Z)
  (rows : sqlx.Rows) (cerr : option error) (l : log) :
  callback rows = (Returned cerr, l) ->
  (forall (s : RdbmsImpl.rdbms) (f : RdbmsImpl.SpanNameFunc)
          (cname name : string),
     RdbmsImpl.spanNameFunc s = Some f ->
     f cstmt = Returned cname ->
     f stmt = Returned name ->
     sqlx.Scan_result
       (QueryRowxContext_result (RdbmsImpl.queryExecutor s) cstmt cargs)
       = inl (VInt total) ->
     QueryxContext_result (RdbmsImpl.queryExecutor s) stmt args = inl rows ->
     exists pre post,
       RdbmsImpl.QuerySqPagination s countQuery query p callback =
         (Returned
            match cerr with
            | None =>
                ({| out_Page := Page p; out_PageSize := PageSize p;
                    PageCount := getPageCount (PageSize p) total;
                    TotalData := total |}, None)
            | Some e =>
                (RdbmsImpl.noPaginationOutput,
                 Some (errTracer
                         (pkg ++ ".(*rdbms).QuerySqPagination:241") e))
            end,
          pre ++ l ++ post) /\
       executions pre
         = [EvQueryRowx (on (RdbmsImpl.queryExecutor s)) cstmt cargs;
            EvQueryx (on (RdbmsImpl.queryExecutor s)) stmt args] /\
       executions post = []) /\
  (forall (s : RdbmsV1.rdbms),
     sqlx.Scan_result (QueryRowxContext_result (RdbmsV1.db s) cstmt cargs)
       = inl (VInt total) ->
     QueryxContext_result (RdbmsV1.db s) stmt args = inl rows ->
     exists pre post,
       RdbmsV1.QuerySqPagination s countQuery query p callback =
         (Returned
            match cerr with
            | None =>
                ({| out_Page := Page p; out_PageSize := PageSize p;
                    PageCount := getPageCount (PageSize p) total;
                    TotalData := total |}, None)
            | Some e =>
                (RdbmsImpl.noPaginationOutput,
                 Some (errTracer
                         (pkg ++ ".(*rdbms).QuerySqPagination:129") e))
            end,
          pre ++ l ++ post) /\
       executions pre = [EvQueryRowx (on (RdbmsV1.db s)) cstmt cargs;
                         EvQueryx (on (RdbmsV1.db s)) stmt args] /\
       executions post = []).
Proof.
  intros Hc. split.
  - intros s f cname name Hs Hfc Hf Hscan Hq.
    exact (rdbms_QuerySqPagination_result s f cname name callback total rows
             cerr l Hs Hfc Hf Hscan Hq Hc).
  - intros s Hscan Hq.
    exact (rdbmsV1_QuerySqPagination_result s callback total rows cerr l
             Hscan Hq Hc).
Qed.

End PagedReads.

(** ** Pagination: pages and offsets together *)

Section PageArithmetic.

Import Pagination.

Lemma getPageCount_many (pageSize totalData : Z) :
  in_int64 pageSize -> in_int64 totalData ->
  0 < pageSize -> pageSize < totalData ->
  getPageCount pageSize totalData = ceil_div totalData pageSize.
Proof.
  intros Hp Ht Hpos Hlt. unfold getPageCount.
  destruct (Z.ltb_spec 0 pageSize) as [_ | ?]; [| lia].
  destruct (Z.leb_spec totalData pageSize); [lia |].
  unfold int64_rem, int64_quo, int64_add.
  rewrite Z.rem_mod_nonneg, Z.quot_div_nonneg by lia.
  destruct (quot_in_int64 totalData pageSize Ht ltac:(lia) Hpos) as [Hq Hq1].
  rewrite (wrap64_id _ Hq).
  destruct (Z.eqb_spec (totalData mod pageSize) 0) as [Hz | Hnz].
  - symmetry. apply ceil_div_exact; assumption.
  - rewrite (wrap64_id _ (Hq1 Hnz)).
    symmetry. apply ceil_div_inexact; assumption.
Qed.

Lemma getPageCount_few (pageSize totalData : Z) :
  pageSize <= 0 \/ totalData <= pageSize ->
  getPageCount pageSize totalData = 1.
Proof.
  intros H. unfold getPageCount.
  destruct (Z.ltb_spec 0 pageSize); [| reflexivity].
  destruct (Z.leb_spec totalData pageSize); [reflexivity | lia].
Qed.

(** X12.  For all [int64] inputs the page count is at least 1.  For a page
    size above zero the pages hold every row (total <= pageCount * pageSize),
    and when there is more than one page the last page is not empty
    ((pageCount - 1) * pageSize < total). *)
Theorem getPageCount_covers (pageSize totalData : Z) :
  in_int64 pageSize -> in_int64 totalData ->
  1 <= getPageCount pageSize totalData /\
  (0 < pageSize ->
     totalData <= getPageCount pageSize totalData * pageSize /\
     (pageSize < totalData ->
        (getPageCount pageSize totalData - 1) * pageSize < totalData)).
Proof.
  intros Hp Ht.
  destruct (Z_lt_le_dec pageSize totalData) as [Hlt | Hle].
  - destruct (Z_lt_le_dec 0 pageSize) as [Hpos | Hnp].
    + rewrite (getPageCount_many _ _ Hp Ht Hpos Hlt).
      pose proof (ceil_div_bounds totalData pageSize Hpos) as [Hlo Hhi].
      repeat split; try lia; nia.
    + rewrite (getPageCount_few _ _ (or_introl Hnp)). split; lia.
  - rewrite (getPageCount_few _ _ (or_intror Hle)). split; lia.
Qed.

Lemma getPageCount_covers_witness :
  1 <= getPageCount 10 25 /\
  25 <= getPageCount 10 25 * 10 /\
  (getPageCount 10 25 - 1) * 10 < 25.
Proof.
  assert (R : forall z, - 100 <= z <= 100 -> in_int64 z)
    by (unfold in_int64; rewrite two63_val; lia).
  assert (H10 : in_int64 10) by (apply R; lia).
  assert (H25 : in_int64 25) by (apply R; lia).
  destruct (getPageCount_covers 10 25 H10 H25) as [H1 H2].
  destruct (H2 ltac:(lia)) as [H3 H4].
  split; [exact H1 | split; [exact H3 | apply H4; lia]].
Defined.

(** X13.  With a page size above zero and at least one row, every page from
    1 to [getPageCount(pageSize, total)] starts inside the data: its
    [Offset()] is exactly (page - 1) * pageSize, with no wrap-around, and
    lies in [0, total). *)
Theorem Offset_of_counted_page (pageSize totalData page : Z) :
  in_int64 pageSize -> in_int64 totalData ->
  0 < pageSize -> 1 <= totalData ->
  1 <= page <= getPageCount pageSize totalData ->
  Offset {| Page := page; PageSize := pageSize |} = (page - 1) * pageSize /\
  0 <= Offset {| Page := page; PageSize := pageSize |} < totalData.
Proof.
  intros Hp Ht Hpos Htot Hpage.
  assert (Hfit : 0 <= (page - 1) * pageSize < totalData).
  { destruct (Z_lt_le_dec pageSize totalData) as [Hlt | Hle].
    - rewrite (getPageCount_many _ _ Hp Ht Hpos Hlt) in Hpage.
      pose proof (ceil_div_bounds totalData pageSize Hpos) as [Hlo _].
      split; nia.
    - rewrite (getPageCount_few _ _ (or_intror Hle)) in Hpage.
      assert (page = 1) by lia. subst page. lia. }
  assert (Hin : in_int64 ((page - 1) * pageSize))
    by (unfold in_int64 in *; lia).
  assert (Hp1 : in_int64 (page - 1)).
  { unfold in_int64 in *. split; [lia |].
    assert (page - 1 <= (page - 1) * pageSize) by nia. lia. }
  assert (E : Offset {| Page := page; PageSize := pageSize |}
              = (page - 1) * pageSize).
  { unfold Offset. cbn [Page PageSize].
    destruct (Z.ltb_spec 0 page); [| lia].
    unfold int64_mul, int64_sub. rewrite (wrap64_id _ Hp1).
    apply wrap64_id. exact Hin. }
  rewrite E. split; [reflexivity | exact Hfit].
Qed.

Lemma Offset_of_counted_page_witness :
  Offset {| Page := 3; PageSize := 10 |} = (3 - 1) * 10 /\
  0 <= Offset {| Page := 3; PageSize := 10 |} < 25.
Proof.
  assert (R : forall z, - 100 <= z <= 100 -> in_int64 z)
    by (unfold in_int64; rewrite two63_val; lia).
  assert (H10 : in_int64 10) by (apply R; lia).
  assert (H25 : in_int64 25) by (apply R; lia).
  apply (Offset_of_counted_page 10 25 3 H10 H25); try lia.
  vm_compute. split; discriminate.
Defined.

End PageArithmetic.

(** ** Tagging *)

Lemma errors_is_errTracer_sentinel (caller : string) (e : error) (m : string) :
  errors_is (errTracer caller e) (errorString m) = errors_is e (errorString m).
Proof. reflexivity. Qed.

Lemma errors_is_tags (callers : list string) (e t : error) :
  errors_is e t = true -> errors_is (fold_right errTracer e callers) t = true.
Proof.
  intros H. induction callers as [| c cs IH]; [exact H |].
  cbn [fold_right]. apply errors_is_errTracer. exact IH.
Qed.

(** X14.  Tagging an error with [errTracer], any number of times, keeps the
    error itself on the chain and neither hides nor adds a sentinel: the
    tagged error matches a sentinel made by [errors.New] exactly when the
    error did.  So [recordError] treats the tagged error as it treats the
    error: it records nothing for one exactly when it records nothing for
    the other. *)
Theorem errTracer_keeps_sentinels (callers : list string) (e : error) :
  let tagged := fold_right errTracer e callers in
  errors_is tagged e = true /\
  (forall m, errors_is tagged (errorString m) = errors_is e (errorString m)) /\
  (forall sp, snd (recordError sp (Some tagged)) = [] <->
              snd (recordError sp (Some e)) = []).
Proof.
  cbv zeta.
  assert (Hs : forall m, errors_is (fold_right errTracer e callers)
                           (errorString m) = errors_is e (errorString m)).
  { intros m. induction callers as [| c cs IH]; [reflexivity |].
    cbn [fold_right]. rewrite errors_is_errTracer_sentinel. exact IH. }
  split; [apply errors_is_tags, errors_is_refl |]. split; [exact Hs |].
  intros sp. unfold recordError, sql_ErrNoRows. rewrite Hs.
  destruct (errors_is e (errorString "sql: no rows in result set"));
    cbn; split; intros H; try reflexivity; discriminate.
Qed.

(** ** Options *)

Lemma options_fold (os : list rdbmsOption) :
  forall r0 : RdbmsImpl.rdbms,
    let r := fold_left (fun r o => o r) (map optionFunc_of os) r0 in
    RdbmsImpl.db r = RdbmsImpl.db r0 /\
    RdbmsImpl.queryExecutor r = RdbmsImpl.queryExecutor r0 /\
    RdbmsImpl.attrs r = RdbmsImpl.attrs r0 ++ all_attributes os /\
    RdbmsImpl.spanNameFunc r
      = last_spanNameFunc os (RdbmsImpl.spanNameFunc r0) /\
    RdbmsImpl.includeParams r
      = (RdbmsImpl.includeParams r0 && negb (disables_params os))%bool /\
    RdbmsImpl.config r = last_config os (RdbmsImpl.config r0).
Proof.
  induction os as [| op os IH]; intros r0; cbv zeta.
  - cbn. rewrite app_nil_r, andb_true_r. repeat split.
  - cbn [map fold_left].
    destruct (IH (optionFunc_of op r0)) as (H1 & H2 & H3 & H4 & H5 & H6).
    rewrite H1, H2, H3, H4, H5, H6.
    destruct op; cbn;
      rewrite <- ?app_assoc, ?andb_false_l, ?andb_false_r; repeat split.
Qed.

(** X15.  [NewRdbms(db, opts...)] binds the facade to [db] whatever the
    options are.  The attributes are those of every [WithAttributes], in the
    order of the options; the span-name function is that of the last
    [WithSpanNameFunc], or [defaultSpanNameFN] when there is none; the
    connection config is that of the last [WithConfig], or none; and query
    parameters are included exactly when no option is
    [WithOutIncludeQueryParameters]. *)
Theorem NewRdbms_options (d : DB) (os : list rdbmsOption) :
  let r := RdbmsImpl.NewRdbms d (map optionFunc_of os) in
  RdbmsImpl.db r = d /\
  RdbmsImpl.queryExecutor r = DB_queryExecutor d /\
  RdbmsImpl.attrs r = all_attributes os /\
  RdbmsImpl.spanNameFunc r
    = last_spanNameFunc os (Some RdbmsImpl.defaultSpanNameFN) /\
  RdbmsImpl.includeParams r = negb (disables_params os) /\
  RdbmsImpl.config r = last_config os None.
Proof.
  cbv zeta. unfold RdbmsImpl.NewRdbms.
  match goal with
  | |- context [fold_left _ _ ?r0] =>
      destruct (options_fold os r0) as (H1 & H2 & H3 & H4 & H5 & H6)
  end.
  rewrite H1, H2, H3, H4, H5, H6. repeat split.
Qed.

(** ** Spans of src/rdbms_impl.go *)

Section SpanNaming.

Variable s : RdbmsImpl.rdbms.
Variable query : squirrel.Sqlizer.
Variable stmt : string.
Variable args : list value.
Hypothesis rendered : squirrel.ToSql query = (stmt, args, None).

(** X16.  When the span-name function of the facade answers [name] for the
    rendered statement, [QuerySq], [ExecSq] and [QueryRowSq] each begin by
    starting a span called [name], with the same options.  The operation
    name attribute of that span is [name] too (not the first word of the
    statement); the options carry the statement text; they carry the query
    arguments when parameters are included, and no arguments at all when
    parameters are excluded and the extra attributes hold none. *)
Theorem rdbms_span_start (f : RdbmsImpl.SpanNameFunc) (name : string) :
  RdbmsImpl.spanNameFunc s = Some f ->
  f stmt = Returned name ->
  exists opts,
    (forall callback, exists rest,
       snd (RdbmsImpl.QuerySq s query callback)
         = EvSpanStart name opts :: rest) /\
    (exists rest,
       snd (RdbmsImpl.ExecSq s query) = EvSpanStart name opts :: rest) /\
    (forall scanType dest, exists rest,
       snd (RdbmsImpl.QueryRowSq s query scanType dest)
         = EvSpanStart name opts :: rest) /\
    In (WithSpanAttributes [AttrString "db.operation.name" name]) opts /\
    In (WithSpanAttributes [AttrString "db.query.text" stmt]) opts /\
    (RdbmsImpl.includeParams s = true ->
       In (WithSpanAttributes [makeParamAttr "db.query.parameter" args])
          opts) /\
    (RdbmsImpl.includeParams s = false ->
       carries_args (WithSpanAttributes (RdbmsImpl.attrs s)) = false ->
       forallb (fun o => negb (carries_args o)) opts = true).
Proof.
  intros Hs Hf.
  destruct (rdbms_span_prelude s f stmt name args Hs Hf)
    as (Hn & opts & Hopts & Hop & Htext & Hinc & Hexc).
  exists opts. repeat split; auto.
  - intros callback.
    unfold RdbmsImpl.QuerySq. rewrite rendered, Hn, Hopts.
    unfold_go. cbn.
    destruct (QueryxContext_result (RdbmsImpl.queryExecutor s) stmt args)
      as [rows | e]; cbn.
    + destruct (callback rows) as [res l].
      destruct (RdbmsImpl.closeRows name rows) as [[[] | q] cl]; cbn;
        eexists; reflexivity.
    + rewrite (recordError_split _ (Some e)). cbn. eexists. reflexivity.
  - unfold RdbmsImpl.ExecSq. rewrite rendered, Hn, Hopts.
    unfold_go. cbn.
    destruct (ExecContext_result (RdbmsImpl.queryExecutor s) stmt args)
      as [r | e]; cbn; [eexists; reflexivity |].
    rewrite (recordError_split _ (Some e)). cbn. eexists. reflexivity.
  - intros scanType dest.
    unfold RdbmsImpl.QueryRowSq. rewrite rendered, Hn, Hopts.
    unfold_go. cbn.
    destruct (scanType =? QueryRowScanTypeStruct); cbn;
      match goal with
      | |- context [match ?r with inl _ => _ | inr _ => _ end] =>
          destruct r as [v | e]
      end; cbn; try (eexists; reflexivity);
      destruct (errors_is e sql_ErrNoRows); cbn;
      try rewrite (recordError_split _ (Some e)); cbn;
      eexists; reflexivity.
Qed.

(** X17.  The span is named before anything else happens: when the
    span-name function is nil (as after [WithSpanNameFunc(nil)]) the three
    operations panic on the nil call, and when it panics on the rendered
    statement they panic with its payload; either way no span is started
    and nothing is executed. *)
Theorem rdbms_span_name_panics :
  (RdbmsImpl.spanNameFunc s = None ->
     (forall callback,
        RdbmsImpl.QuerySq s query callback
          = (Panicked PanicNilDereference, [])) /\
     RdbmsImpl.ExecSq s query = (Panicked PanicNilDereference, []) /\
     (forall scanType dest,
        RdbmsImpl.QueryRowSq s query scanType dest
          = (Panicked PanicNilDereference, []))) /\
  (forall (f : RdbmsImpl.SpanNameFunc) (payload : panic_value),
     RdbmsImpl.spanNameFunc s = Some f ->
     f stmt = Panicked payload ->
     (forall callback,
        RdbmsImpl.QuerySq s query callback = (Panicked payload, [])) /\
     RdbmsImpl.ExecSq s query = (Panicked payload, []) /\
     (forall scanType dest,
        RdbmsImpl.QueryRowSq s query scanType dest
          = (Panicked payload, []))).
Proof.
  unfold RdbmsImpl.QuerySq, RdbmsImpl.ExecSq, RdbmsImpl.QueryRowSq,
    RdbmsImpl.call_spanNameFunc.
  rewrite rendered. split.
  - intros Hs. rewrite Hs. repeat split.
  - intros f payload Hs Hf. rewrite Hs, Hf. repeat split.
Qed.

End SpanNaming.

(** ** Work inside a transaction *)

Arguments RdbmsImpl.ExecSq : simpl never.
Arguments RdbmsV1.ExecSq : simpl never.

Lemma rdbms_resolveTx_returns (sp : span) (tx : Tx) (err : option error) :
  fst (RdbmsImpl.resolveTx sp tx None err) =
    Returned match err with
             | Some e => match Rollback_result tx with
                         | Some rb => Some (errors_join e rb)
                         | None => Some e
                         end
             | None => Commit_result tx
             end.
Proof.
  unfold RdbmsImpl.resolveTx. unfold_go.
  destruct err as [e |]; cbn;
    [ destruct (Rollback_result tx) as [rb |]
    | destruct (Commit_result tx) as [ec |] ]; cbn;
    repeat step_recordError; reflexivity.
Qed.

Lemma sqlxTransaction_resolveTx_returns (sp : span) (tx : Tx)
  (err : option error) :
  fst (DbTxImpl.resolveTx sp tx None err) =
    Returned match err with
             | Some e => match Rollback_result tx with
                         | Some rb => Some rb
                         | None => Some e
                         end
             | None => Commit_result tx
             end.
Proof.
  unfold DbTxImpl.resolveTx. unfold_go.
  destruct err as [e |]; cbn;
    [ destruct (Rollback_result tx) as [rb |]
    | destruct (Commit_result tx) as [ec |] ]; cbn;
    repeat step_recordError; reflexivity.
Qed.

Lemma rdbms_resolveTx_executions (sp : span) (tx : Tx)
  (p : option panic_value) (err : option error) :
  executions (snd (RdbmsImpl.resolveTx sp tx p err)) = [].
Proof.
  unfold RdbmsImpl.resolveTx. unfold_go.
  destruct p as [payload |]; [| destruct err as [e |]]; cbn;
    [ destruct (Rollback_result tx) as [rb |]
    | destruct (Rollback_result tx) as [rb |]
    | destruct (Commit_result tx) as [ec |] ]; cbn;
    repeat step_recordError; cbn; subst; read_log; reflexivity.
Qed.

Lemma sqlxTransaction_resolveTx_executions (sp : span) (tx : Tx)
  (p : option panic_value) (err : option error) :
  executions (snd (DbTxImpl.resolveTx sp tx p err)) = [].
Proof.
  unfold DbTxImpl.resolveTx. unfold_go.
  destruct p as [payload |]; [| destruct err as [e |]]; cbn;
    [ | destruct (Rollback_result tx) as [rb |]
      | destruct (Commit_result tx) as [ec |] ]; cbn;
    repeat step_recordError; cbn; subst; read_log; reflexivity.
Qed.

Section WorkInTransaction.

Variable o : sql.TxOptions.
Variable tx : Tx.
Variable query : squirrel.Sqlizer.
Variable stmt : string.
Variable args : list value.
Hypothesis rendered : squirrel.ToSql query = (stmt, args, None).

Lemma rdbms_DoTx_write (s : RdbmsImpl.rdbms) (f : RdbmsImpl.SpanNameFunc)
  (name : string) :
  BeginTxx_result (RdbmsImpl.db s) o = inl tx ->
  RdbmsImpl.spanNameFunc s = Some f ->
  f stmt = Returned name ->
  let run := RdbmsImpl.DoTx s (Some o) (writeOnce query) in
  let r := ExecContext_result (Tx_queryExecutor tx) stmt args in
  fst run = Returned match r with
                     | inl _ => Commit_result tx
                     | inr e => match Rollback_result tx with
                                | Some rb => Some (errors_join e rb)
                                | None => Some e
                                end
                     end /\
  executions (snd run) = [EvExec (on (Tx_queryExecutor tx)) stmt args] /\
  resolutions (snd run) = [match r with
                           | inl _ => EvCommit
                           | inr _ => EvRollback
                           end].
Proof.
  intros Hb Hs Hf run r. subst run r.
  destruct (rdbms_ExecSq_runs_once query stmt args rendered
              (RdbmsImpl.injectTx s tx) f name Hs Hf) as (opts & Ex).
  cbn [RdbmsImpl.injectTx RdbmsImpl.queryExecutor] in Ex.
  unfold RdbmsImpl.DoTx, writeOnce. unfold_go. cbn. rewrite Hb. cbn.
  rewrite Ex.
  destruct (ExecContext_result (Tx_queryExecutor tx) stmt args) as [res | e];
    cbn.
  - pose proof (rdbms_resolveTx_returns "do transaction" tx None) as Hr.
    pose proof (rdbms_resolveTx_executions "do transaction" tx None None)
      as He.
    pose proof (rdbms_resolveTx_resolutions "do transaction" tx None None)
      as Hres.
    destruct (RdbmsImpl.resolveTx "do transaction" tx None None)
      as [r post]. cbn [fst snd] in *. subst r.
    split; [reflexivity |]. norm_log. read_log.
    unfold executions, resolutions in *. rewrite He, Hres.
    split; reflexivity.
  - rewrite (recordError_split _ (Some e)). cbn.
    pose proof (rdbms_resolveTx_returns "do transaction" tx (Some e)) as Hr.
    pose proof (rdbms_resolveTx_executions "do transaction" tx None (Some e))
      as He.
    pose proof (rdbms_resolveTx_resolutions "do transaction" tx None (Some e))
      as Hres.
    destruct (RdbmsImpl.resolveTx "do transaction" tx None (Some e))
      as [r post]. cbn [fst snd] in *. subst r.
    split; [reflexivity |]. norm_log. read_log.
    unfold executions, resolutions in *. rewrite He, Hres.
    split; reflexivity.
Qed.

Lemma sqlxTransaction_DoTx_write (s : DbTxImpl.sqlxTransaction) :
  BeginTxx_result (DbTxImpl.db s) o = inl tx ->
  let run := DbTxImpl.DoTx s (Some o) (writeOnceV1 query) in
  let r := ExecContext_result (Tx_queryExecutor tx) stmt args in
  fst run = Returned match r with
                     | inl _ => Commit_result tx
                     | inr e => match Rollback_result tx with
                                | Some rb => Some rb
                                | None => Some e
                                end
                     end /\
  executions (snd run) = [EvExec (on (Tx_queryExecutor tx)) stmt args] /\
  resolutions (snd run) = [match r with
                           | inl _ => EvCommit
                           | inr _ => EvRollback
                           end].
Proof.
  intros Hb run r. subst run r.
  pose proof (rdbmsV1_ExecSq_runs_once query stmt args rendered
                (RdbmsV1.NewRdbms (Tx_queryExecutor tx))) as Ex.
  cbn [RdbmsV1.NewRdbms RdbmsV1.db] in Ex.
  unfold DbTxImpl.DoTx, writeOnceV1. unfold_go. cbn. rewrite Hb. cbn.
  rewrite Ex.
  destruct (ExecContext_result (Tx_queryExecutor tx) stmt args) as [res | e];
    cbn.
  - pose proof (sqlxTransaction_resolveTx_returns "do transaction" tx None)
      as Hr.
    pose proof (sqlxTransaction_resolveTx_executions "do transaction" tx
                  None None) as He.
    pose proof (sqlxTransaction_resolveTx_resolutions "do transaction" tx
                  None None) as Hres.
    destruct (DbTxImpl.resolveTx "do transaction" tx None None)
      as [r post]. cbn [fst snd] in *. subst r.
    split; [reflexivity |]. norm_log. read_log.
    unfold executions, resolutions in *. rewrite He, Hres.
    split; reflexivity.
  - pose proof (sqlxTransaction_resolveTx_returns "do transaction" tx
                  (Some e)) as Hr.
    pose proof (sqlxTransaction_resolveTx_executions "do transaction" tx
                  None (Some e)) as He.
    pose proof (sqlxTransaction_resolveTx_resolutions "do transaction" tx
                  None (Some e)) as Hres.
    destruct (DbTxImpl.resolveTx "do transaction" tx None (Some e))
      as [r post]. cbn [fst snd] in *. subst r.
    split; [reflexivity |]. norm_log. read_log.
    unfold executions, resolutions in *. rewrite He, Hres.
    split; reflexivity.
Qed.

(** X18.  A work function that runs one write through the facade it is
    given and returns its error: inside [DoTx] the write is executed once,
    on the executor of the transaction, and it is the only statement
    executed.  If the write succeeds the transaction is committed and [DoTx]
    returns what the commit answered; if it fails the transaction is rolled
    back and [DoTx] returns the driver's error (in [DoTx] of [rdbms] joined
    with the rollback error when the rollback fails too; in [DoTx] of
    [sqlxTransaction] replaced by it). *)
Theorem DoTx_write_on_transaction :
  (forall (s : RdbmsImpl.rdbms) (f : RdbmsImpl.SpanNameFunc) (name : string),
     BeginTxx_result (RdbmsImpl.db s) o = inl tx ->
     RdbmsImpl.spanNameFunc s = Some f ->
     f stmt = Returned name ->
     let run := RdbmsImpl.DoTx s (Some o) (writeOnce query) in
     let r := ExecContext_result (Tx_queryExecutor tx) stmt args in
     fst run = Returned match r with
                        | inl _ => Commit_result tx
                        | inr e => match Rollback_result tx with
                                   | Some rb => Some (errors_join e rb)
                                   | None => Some e
                                   end
                        end /\
     executions (snd run) = [EvExec (on (Tx_queryExecutor tx)) stmt args] /\
     resolutions (snd run) = [match r with
                              | inl _ => EvCommit
                              | inr _ => EvRollback
                              end]) /\
  (forall (s : DbTxImpl.sqlxTransaction),
     BeginTxx_result (DbTxImpl.db s) o = inl tx ->
     let run := DbTxImpl.DoTx s (Some o) (writeOnceV1 query) in
     let r := ExecContext_result (Tx_queryExecutor tx) stmt args in
     fst run = Returned match r with
                        | inl _ => Commit_result tx
                        | inr e => match Rollback_result tx with
                                   | Some rb => Some rb
                                   | None => Some e
                                   end
                        end /\
     executions (snd run) = [EvExec (on (Tx_queryExecutor tx)) stmt args] /\
     resolutions (snd run) = [match r with
                              | inl _ => EvCommit
                              | inr _ => EvRollback
                              end]).
Proof.
  split.
  - intros s f name. apply rdbms_DoTx_write.
  - intros s. apply sqlxTransaction_DoTx_write.
Qed.

End WorkInTransaction.

(** ** Names *)

Lemma length_append (a b : string) :
  String.length (a ++ b)%string = (String.length a + String.length b)%nat.
Proof. induction a as [| c a IH]; cbn; [reflexivity | now rewrite IH]. Qed.

Lemma length_substring_0 (n : nat) :
  forall s, (n <= String.length s)%nat ->
            String.length (substring 0 n s) = n.
Proof.
  induction n as [| n IH]; intros s Hlen.
  - destruct s; reflexivity.
  - destruct s as [| c s]; cbn in *; [lia |]. rewrite IH; [reflexivity | lia].
Qed.

Lemma prefix_substring_0 (n : nat) :
  forall s, prefix (substring 0 n s) s = true.
Proof.
  induction n as [| n IH]; intros s.
  - destruct s; reflexivity.
  - destruct s as [| c s]; cbn; [reflexivity |].
    destruct (ascii_dec c c) as [_ | Hne]; [apply IH | contradiction].
Qed.

(** X19.  On a statement of at least 15 bytes [defaultSpanNameFN] does not
    fault: the name is the first 15 bytes of the statement followed by three
    dots, 18 bytes in all. *)
Theorem defaultSpanNameFN_long (stmt : string) :
  (15 <= String.length stmt)%nat ->
  exists cut,
    RdbmsImpl.defaultSpanNameFN stmt = Returned (cut ++ "...")%string /\
    String.length cut = 15%nat /\
    prefix cut stmt = true /\
    String.length (cut ++ "...")%string = 18%nat.
Proof.
  intros Hlen. exists (substring 0 15 stmt).
  unfold RdbmsImpl.defaultSpanNameFN.
  destruct (Nat.ltb_spec (String.length stmt) 15) as [Hlt | _]; [lia |].
  pose proof (length_substring_0 15 stmt Hlen) as H15.
  repeat split.
  - exact H15.
  - apply prefix_substring_0.
  - rewrite length_append, H15. reflexivity.
Qed.

Lemma defaultSpanNameFN_long_witness :
  exists cut,
    RdbmsImpl.defaultSpanNameFN "SELECT * FROM users WHERE id = ?"
      = Returned (cut ++ "...")%string /\
    String.length cut = 15%nat /\
    prefix cut "SELECT * FROM users WHERE id = ?" = true /\
    String.length (cut ++ "...")%string = 18%nat.
Proof.
  apply (defaultSpanNameFN_long "SELECT * FROM users WHERE id = ?").
  cbn. lia.
Defined.

Lemma append_assoc (a b c : string) :
  ((a ++ b) ++ c = a ++ (b ++ c))%string.
Proof. induction a as [| x a IH]; cbn; [reflexivity | now rewrite IH]. Qed.

Lemma append_empty_r (a : string) : (a ++ "")%string = a.
Proof. induction a as [| x a IH]; cbn; [reflexivity | now rewrite IH]. Qed.

Lemma fields_from_word (word : string) :
  forall cur rest,
    no_space word = true ->
    fields_from cur (word ++ rest) = fields_from (cur ++ word) rest.
Proof.
  induction word as [| c w IH]; intros cur rest Hw.
  - cbn. rewrite append_empty_r. reflexivity.
  - cbn in Hw. apply andb_true_iff in Hw. destruct Hw as [Hc Hw].
    apply negb_true_iff in Hc. cbn [append fields_from]. rewrite Hc.
    rewrite (IH _ rest Hw), append_assoc. reflexivity.
Qed.

Lemma fields_from_lead (lead : string) :
  forall rest,
    all_space lead = true ->
    fields_from EmptyString (lead ++ rest) = fields_from EmptyString rest.
Proof.
  induction lead as [| c l IH]; intros rest Hl; [reflexivity |].
  cbn in Hl. apply andb_true_iff in Hl. destruct Hl as [Hc Hl].
  cbn [append fields_from]. rewrite Hc. apply IH. exact Hl.
Qed.

(** X20.  On 7-bit text, [sqlOperationName] of src/util.go is ["UNKNOWN"]
    for a statement that is empty or all white space; otherwise it is the
    first word, the bytes between the leading white space and the next white
    space or the end, in upper case. *)
Theorem sqlOperationName_first_word (lead word rest : string) :
  is_ascii (lead ++ word ++ rest) = true ->
  all_space lead = true ->
  (RdbmsV1.sqlOperationName lead = sqlOperationUnknown) /\
  (no_space word = true -> word <> EmptyString ->
   match rest with
   | EmptyString => True
   | String c _ => is_space c = true
   end ->
   RdbmsV1.sqlOperationName (lead ++ word ++ rest) = ToUpper word).
Proof.
  intros _ Hl. unfold RdbmsV1.sqlOperationName, Fields. split.
  - rewrite <- (append_empty_r lead), (fields_from_lead lead "" Hl).
    reflexivity.
  - intros Hw Hne Hrest.
    rewrite (fields_from_lead lead _ Hl), (fields_from_word word "" rest Hw).
    cbn [append].
    destruct rest as [| c rest]; cbn [fields_from].
    + destruct word; [contradiction | reflexivity].
    + rewrite Hrest. destruct word; [contradiction | reflexivity].
Qed.

Lemma sqlOperationName_first_word_witness :
  RdbmsV1.sqlOperationName "   " = "UNKNOWN" /\
  RdbmsV1.sqlOperationName "  select * from users" = "SELECT".
Proof.
  split.
  - apply (sqlOperationName_first_word "   " "" ""); reflexivity.
  - apply (sqlOperationName_first_word "  " "select" " * from users");
      try reflexivity; discriminate.
Defined.

(** ** Runs *)

Section FurtherScenarios.

Import Scenario Cases.

Lemma render_failure_runs_nothing_witness :
  RdbmsImpl.QuerySq (RdbmsImpl.NewRdbms (connection None None) [])
    unrendered (fun _ => ret None)
    = (Returned (Some (errTracer (pkg ++ ".(*rdbms).QuerySq:158") boom)), [])
  /\
  RdbmsV1.ExecSq (RdbmsV1.NewRdbms (failing OnDB boom)) unrendered
    = (Returned (None, Some (errTracer (pkg ++ ".(*rdbms).ExecSq:60") boom)),
       []).
Proof.
  destruct (render_failure_runs_nothing unrendered "" [] boom eq_refl)
    as (H1 & H2 & _).
  split.
  - apply (H1 (RdbmsImpl.NewRdbms (connection None None) [])).
  - apply (H2 (RdbmsV1.NewRdbms (failing OnDB boom))).
Defined.

Lemma QuerySq_execute_failure_witness :
  fst (RdbmsV1.QuerySq (RdbmsV1.NewRdbms (failing OnDB boom)) selectUser
         (fun _ => panic (PanicValue "not run")))
    = Returned (Some boom).
Proof.
  rewrite (proj2 (QuerySq_execute_failure selectUser
                    "SELECT * FROM users WHERE id = ?" [VInt 1] eq_refl boom)
             (RdbmsV1.NewRdbms (failing OnDB boom)) eq_refl).
  reflexivity.
Defined.

Lemma ExecSq_runs_once_witness :
  executions (snd (RdbmsV1.ExecSq (RdbmsV1.NewRdbms (failing OnDB boom))
                     insertUser))
    = [EvExec OnDB "INSERT INTO users (name) VALUES (?)" [VString "ann"]].
Proof.
  rewrite (proj2 (ExecSq_runs_once insertUser
                    "INSERT INTO users (name) VALUES (?)" [VString "ann"]
                    eq_refl)
             (RdbmsV1.NewRdbms (failing OnDB boom))).
  reflexivity.
Defined.


Lemma QuerySqPagination_count_failure_witness :
  exists t l,
    (forall callback,
       RdbmsV1.QuerySqPagination (RdbmsV1.NewRdbms (failing OnDB boom))
         countUsers listUsers
         {| Pagination.Page := 1; Pagination.PageSize := 10 |} callback
         = (Returned (RdbmsImpl.noPaginationOutput, Some t), l)) /\
    errors_is t boom = true /\
    executions l = [EvQueryRowx OnDB "SELECT COUNT(*) FROM users" []].
Proof.
  apply (proj2 (QuerySqPagination_count_failure countUsers listUsers
                  {| Pagination.Page := 1; Pagination.PageSize := 10 |}
                  "SELECT COUNT(*) FROM users" [] eq_refl boom)
           (RdbmsV1.NewRdbms (failing OnDB boom)) eq_refl).
Defined.

Lemma QuerySqPagination_result_witness :
  fst (RdbmsV1.QuerySqPagination
         (RdbmsV1.NewRdbms (executor OnDB None (inl (VInt 25))))
         countUsers listUsers
         {| Pagination.Page := 2; Pagination.PageSize := 10 |}
         (fun _ => ret None))
    = Returned ({| Pagination.out_Page := 2; Pagination.out_PageSize := 10;
                   Pagination.PageCount := 3; Pagination.TotalData := 25 |},
                None).
Proof.
  destruct (proj2 (QuerySqPagination_result countUsers listUsers
                     {| Pagination.Page := 2; Pagination.PageSize := 10 |}
                     "SELECT COUNT(*) FROM users"
                     "SELECT id FROM users LIMIT 10 OFFSET 10" [] []
                     eq_refl eq_refl (fun _ => ret None) 25
                     {| sqlx.Close_result := None |} None [] eq_refl)
              (RdbmsV1.NewRdbms (executor OnDB None (inl (VInt 25))))
              eq_refl eq_refl) as (pre & post & E & _).
  rewrite E. reflexivity.
Defined.

Lemma rdbms_span_start_witness :
  exists opts rest,
    snd (RdbmsImpl.ExecSq (RdbmsImpl.NewRdbms (connection None None) [])
           insertUser)
      = EvSpanStart "INSERT INTO use..." opts :: rest /\
    In (WithSpanAttributes
          [AttrString "db.operation.name" "INSERT INTO use..."]) opts.
Proof.
  destruct (rdbms_span_start
              (RdbmsImpl.NewRdbms (connection None None) []) insertUser
              "INSERT INTO users (name) VALUES (?)" [VString "ann"] eq_refl
              RdbmsImpl.defaultSpanNameFN "INSERT INTO use..."
              eq_refl eq_refl)
    as (opts & _ & (rest & E) & _ & Hop & _).
  exists opts, rest. split; [exact E | exact Hop].
Defined.

Lemma rdbms_span_name_panics_witness :
  RdbmsImpl.ExecSq
    (RdbmsImpl.NewRdbms (connection None None)
       [RdbmsImpl.WithSpanNameFunc None])
    insertUser
    = (Panicked PanicNilDereference, []).
Proof.
  apply (proj1 (rdbms_span_name_panics
                  (RdbmsImpl.NewRdbms (connection None None)
                     [RdbmsImpl.WithSpanNameFunc None])
                  insertUser "INSERT INTO users (name) VALUES (?)"
                  [VString "ann"] eq_refl) eq_refl).
Defined.

Lemma DoTx_write_on_transaction_witness :
  fst (RdbmsImpl.DoTx
         (RdbmsImpl.NewRdbms (failingConnection boom None None) [])
         (Some options) (writeOnce insertUser))
    = Returned (Some boom) /\
  resolutions
    (snd (DbTxImpl.DoTx
            (DbTxImpl.NewSqlxTransaction (failingConnection boom None None))
            (Some options) (writeOnceV1 insertUser)))
    = [EvRollback].
Proof.
  destruct (DoTx_write_on_transaction options
              (failingTransaction boom None None) insertUser
              "INSERT INTO users (name) VALUES (?)" [VString "ann"] eq_refl)
    as [H1 H2].
  split.
  - apply (H1 (RdbmsImpl.NewRdbms (failingConnection boom None None) [])
              RdbmsImpl.defaultSpanNameFN "INSERT INTO use..."
              eq_refl eq_refl eq_refl).
  - apply (H2 (DbTxImpl.NewSqlxTransaction
                 (failingConnection boom None None)) eq_refl).
Defined.

End FurtherScenarios.

(** ** A panic in a row handler inside a transaction *)

Lemma recordError_cleanups (sp : span) (err : option error) :
  cleanups (snd (recordError sp err)) = [].
Proof.
  unfold recordError. destruct err as [e |]; [| reflexivity].
  destruct (errors_is e sql_ErrNoRows); reflexivity.
Qed.

Lemma cleanups_app (l1 l2 : log) :
  cleanups (l1 ++ l2) = cleanups l1 ++ cleanups l2.
Proof. apply filter_app. Qed.

Lemma cleanups_cons (ev : event) (l : log) :
  cleanups (ev :: l)
    = if is_cleanup ev then ev :: cleanups l else cleanups l.
Proof. reflexivity. Qed.

Ltac read_cleanups :=
  repeat (rewrite ?cleanups_app, ?cleanups_cons, ?recordError_cleanups;
          cbn [is_cleanup app]).

Lemma closeRows_cleanups (closer : span -> sqlx.Rows -> M unit)
  (sp : span) (rows : sqlx.Rows) :
  closer = RdbmsImpl.closeRows \/ closer = RdbmsV1.closeRows ->
  exists cl,
    closer sp rows = (Returned tt, cl) /\ cleanups cl = [EvRowsClose].
Proof.
  intros [-> | ->]; unfold RdbmsImpl.closeRows, RdbmsV1.closeRows;
    unfold_go; cbn;
    (destruct (sqlx.Close_result rows) as [e |]; cbn;
     [ rewrite (recordError_split sp (Some e)); cbn
     | ];
     eexists; (split; [reflexivity |]); read_cleanups; reflexivity).
Qed.

Lemma rdbms_resolveTx_panic (sp : span) (tx : Tx) (pv : panic_value)
  (err : option error) :
  fst (RdbmsImpl.resolveTx sp tx (Some pv) err) = Panicked pv /\
  cleanups (snd (RdbmsImpl.resolveTx sp tx (Some pv) err)) = [EvRollback].
Proof.
  unfold RdbmsImpl.resolveTx. unfold_go. cbn.
  destruct (Rollback_result tx) as [rb |]; cbn;
    repeat step_recordError; cbn; subst; split; try reflexivity;
    read_cleanups; reflexivity.
Qed.

Lemma sqlxTransaction_resolveTx_panic (sp : span) (tx : Tx)
  (pv : panic_value) (err : option error) :
  fst (DbTxImpl.resolveTx sp tx (Some pv) err) = Panicked pv /\
  cleanups (snd (DbTxImpl.resolveTx sp tx (Some pv) err)) = [EvRollback].
Proof.
  unfold DbTxImpl.resolveTx. unfold_go. cbn.
  repeat step_recordError; cbn; subst; split; try reflexivity;
    read_cleanups; reflexivity.
Qed.

Arguments RdbmsImpl.QuerySq : simpl never.
Arguments RdbmsV1.QuerySq : simpl never.

Section HandlerPanics.

Variable o : sql.TxOptions.
Variable tx : Tx.
Variable query : squirrel.Sqlizer.
Variable stmt : string.
Variable args : list value.
Variable callback : callbackRows.
Variable rows : sqlx.Rows.
Variable pv : panic_value.
Variable l : log.
Hypothesis rendered : squirrel.ToSql query = (stmt, args, None).
Hypothesis opened_rows :
  QueryxContext_result (Tx_queryExecutor tx) stmt args = inl rows.
Hypothesis handler_panics : callback rows = (Panicked pv, l).

Lemma rdbms_QuerySq_handler_panics (s : RdbmsImpl.rdbms)
  (f : RdbmsImpl.SpanNameFunc) (name : string) :
  RdbmsImpl.queryExecutor s = Tx_queryExecutor tx ->
  RdbmsImpl.spanNameFunc s = Some f ->
  f stmt = Returned name ->
  exists pre post,
    RdbmsImpl.QuerySq s query callback = (Panicked pv, pre ++ l ++ post) /\
    cleanups pre = [] /\
    cleanups post = [EvRowsClose; EvSpanEnd name].
Proof.
  intros Hq Hs Hf.
  destruct (rdbms_span_prelude s f stmt name args Hs Hf)
    as (Hn & opts & Hopts & _).
  destruct (closeRows_cleanups RdbmsImpl.closeRows name rows
              (or_introl eq_refl)) as (cl & Ecl & Hcl).
  unfold RdbmsImpl.QuerySq. rewrite rendered, Hn, Hopts.
  unfold_go. cbn. rewrite Hq, opened_rows. cbn.
  rewrite handler_panics, Ecl. cbn.
  exists [EvSpanStart name opts; EvQueryx (on (Tx_queryExecutor tx)) stmt args],
         (cl ++ [EvSpanEnd name]).
  split; [norm_log; reflexivity |]. split; [reflexivity |].
  read_cleanups. unfold cleanups in *. rewrite Hcl. reflexivity.
Qed.

Lemma rdbmsV1_QuerySq_handler_panics (s : RdbmsV1.rdbms) :
  RdbmsV1.db s = Tx_queryExecutor tx ->
  exists pre post,
    RdbmsV1.QuerySq s query callback = (Panicked pv, pre ++ l ++ post) /\
    cleanups pre = [] /\
    cleanups post = [EvRowsClose; EvSpanEnd stmt].
Proof.
  intros Hq.
  destruct (closeRows_cleanups RdbmsV1.closeRows stmt rows
              (or_intror eq_refl)) as (cl & Ecl & Hcl).
  unfold RdbmsV1.QuerySq. rewrite rendered.
  unfold_go. cbn. rewrite Hq, opened_rows. cbn.
  rewrite handler_panics, Ecl. cbn.
  exists [EvSpanStart stmt (RdbmsV1.spanOptions stmt args);
          EvQueryx (on (Tx_queryExecutor tx)) stmt args],
         (cl ++ [EvSpanEnd stmt]).
  split; [norm_log; reflexivity |]. split; [reflexivity |].
  read_cleanups. unfold cleanups in *. rewrite Hcl. reflexivity.
Qed.

(** X21.  When the row handler of a streaming read run inside [DoTx]
    panics, everything is released in order before the panic leaves [DoTx]:
    the rows are closed, the span of the read is ended, the transaction is
    rolled back (not committed) and the span of the transaction is ended;
    then [DoTx] panics with the payload of the handler.  This holds of
    [DoTx] of [rdbms] and of [DoTx] of [sqlxTransaction]. *)
Theorem DoTx_handler_panic_releases :
  (forall (s : RdbmsImpl.rdbms) (f : RdbmsImpl.SpanNameFunc) (name : string),
     BeginTxx_result (RdbmsImpl.db s) o = inl tx ->
     RdbmsImpl.spanNameFunc s = Some f ->
     f stmt = Returned name ->
     exists pre post,
       RdbmsImpl.DoTx s (Some o) (readWith query callback)
         = (Panicked pv, pre ++ l ++ post) /\
       cleanups pre = [] /\
       cleanups post = [EvRowsClose; EvSpanEnd name; EvRollback;
                        EvSpanEnd "do transaction"]) /\
  (forall (s : DbTxImpl.sqlxTransaction),
     BeginTxx_result (DbTxImpl.db s) o = inl tx ->
     exists pre post,
       DbTxImpl.DoTx s (Some o) (readWithV1 query callback)
         = (Panicked pv, pre ++ l ++ post) /\
       cleanups pre = [] /\
       cleanups post = [EvRowsClose; EvSpanEnd stmt; EvRollback;
                        EvSpanEnd "do transaction"]).
Proof.
  split.
  - intros s f name Hb Hs Hf.
    destruct (rdbms_QuerySq_handler_panics (RdbmsImpl.injectTx s tx) f name
                eq_refl Hs Hf) as (pre & post & E & Hpre & Hpost).
    destruct (rdbms_resolveTx_panic "do transaction" tx pv None)
      as [Hr Hc].
    unfold RdbmsImpl.DoTx, readWith. unfold_go. cbn. rewrite Hb. cbn.
    rewrite E.
    destruct (RdbmsImpl.resolveTx "do transaction" tx (Some pv) None)
      as [r rl]. cbn [fst snd] in *. subst r.
    exists (opened (RdbmsImpl.txSpanOptions o) ++ pre),
           (post ++ rl ++ [EvSpanEnd "do transaction"]).
    split; [unfold opened; norm_log; reflexivity |]. split.
    + unfold opened. read_cleanups. exact Hpre.
    + read_cleanups. unfold cleanups in *. rewrite Hpost, Hc. reflexivity.
  - intros s Hb.
    destruct (rdbmsV1_QuerySq_handler_panics
                (RdbmsV1.NewRdbms (Tx_queryExecutor tx)) eq_refl)
      as (pre & post & E & Hpre & Hpost).
    destruct (sqlxTransaction_resolveTx_panic "do transaction" tx pv None)
      as [Hr Hc].
    unfold DbTxImpl.DoTx, readWithV1. unfold_go. cbn. rewrite Hb. cbn.
    rewrite E.
    destruct (DbTxImpl.resolveTx "do transaction" tx (Some pv) None)
      as [r rl]. cbn [fst snd] in *. subst r.
    exists (opened (DbTxImpl.txSpanOptions o) ++ pre),
           (post ++ rl ++ [EvSpanEnd "do transaction"]).
    split; [unfold opened; norm_log; reflexivity |]. split.
    + unfold opened. read_cleanups. exact Hpre.
    + read_cleanups. unfold cleanups in *. rewrite Hpost, Hc. reflexivity.
Qed.

End HandlerPanics.

Lemma DoTx_handler_panic_releases_witness :
  fst (DbTxImpl.DoTx
         (DbTxImpl.NewSqlxTransaction (Scenario.connection None None))
         (Some Scenario.options)
         (readWithV1 Scenario.selectUser
            (fun _ => panic (PanicValue "bad row"))))
    = Panicked (PanicValue "bad row").
Proof.
  destruct (proj2 (DoTx_handler_panic_releases Scenario.options
                     (Scenario.transaction None None) Scenario.selectUser
                     "SELECT * FROM users WHERE id = ?" [VInt 1]
                     (fun _ => panic (PanicValue "bad row"))
                     {| sqlx.Close_result := None |}
                     (PanicValue "bad row") [] eq_refl eq_refl eq_refl)
              (DbTxImpl.NewSqlxTransaction (Scenario.connection None None))
              eq_refl) as (pre & post & E & _).
  rewrite E. reflexivity.
Defined.
